(** * Messenger webhook example ([examples/messenger.js])

    A shallow embedding of the session store, the inbound event router,
    the webhook handler, the Wit actions and the outbound gateway of
    [examples/messenger.js], together with the properties checked
    against it. *)

From Stdlib Require Import ZArith List String Ascii Bool Lia DecimalString.
Import ListNotations.

Local Open Scope string_scope.
Local Open Scope Z_scope.

(** ** JavaScript values

    The values that reach this program are the ones [JSON.parse] builds
    plus [undefined].  Numbers stand for the integers a double holds
    exactly (no fraction, no NaN, no infinity).  Arrays and objects carry
    the identity of their allocation in [ref]: [===] on two of them
    compares that identity, never the contents. *)

#[warnings="-register-all"]
Inductive value : Type :=
| VUndefined
| VNull
| VBool (b : bool)
| VNumber (n : Z)
| VString (s : string)
| VArray (ref : nat) (items : list value)
| VObject (ref : nat) (props : list (string * value)).

Inductive exn : Type :=
| TypeError (message : string).

Inductive result (A : Type) : Type :=
| Ok (a : A)
| Throw (e : exn).

Arguments Ok {A} a.
Arguments Throw {A} e.

Module ResultNotations.
Declare Scope result_scope.
Delimit Scope result_scope with result.
Notation "'let?' x ':=' c 'in' k" :=
  (match c with Ok x => k | Throw e => Throw e end)
    (at level 10, x name, c at level 100, k at level 200) : result_scope.
End ResultNotations.
Import ResultNotations.
Local Open Scope result_scope.

(** Own properties of an object, first binding of a name. *)
Fixpoint assoc {A : Type} (name : string) (props : list (string * A)) : option A :=
  match props with
  | [] => None
  | (k, v) :: rest => if String.eqb k name then Some v else assoc name rest
  end.

Definition has_own (props : list (string * value)) (name : string) : bool :=
  match assoc name props with Some _ => true | None => false end.

Definition is_nullish (v : value) : bool :=
  match v with VUndefined | VNull => true | _ => false end.

(** [ToBoolean]. *)
Definition truthy (v : value) : bool :=
  match v with
  | VUndefined | VNull => false
  | VBool b => b
  | VNumber n => negb (n =? 0)
  | VString s => negb (String.eqb s "")
  | VArray _ _ | VObject _ _ => true
  end.

Definition NumberToString (n : Z) : string :=
  NilZero.string_of_int (Z.to_int n).

(** [v.name] for a name written in the program.  None of the names this
    program reads is defined on a prototype, except [length] on arrays
    and strings. *)
Definition get_prop (v : value) (name : string) : result value :=
  match v with
  | VUndefined =>
      Throw (TypeError ("Cannot read property '" ++ name ++ "' of undefined"))
  | VNull =>
      Throw (TypeError ("Cannot read property '" ++ name ++ "' of null"))
  | VObject _ props =>
      Ok (match assoc name props with Some x => x | None => VUndefined end)
  | VArray _ items =>
      Ok (if String.eqb name "length" then VNumber (Z.of_nat (List.length items))
          else VUndefined)
  | VString s =>
      Ok (if String.eqb name "length" then VNumber (Z.of_nat (String.length s))
          else VUndefined)
  | VBool _ | VNumber _ => Ok VUndefined
  end.

(** [v[i]] for a literal index [i]. *)
Definition get_index (v : value) (i : nat) : result value :=
  match v with
  | VUndefined =>
      Throw (TypeError ("Cannot read property '" ++ NumberToString (Z.of_nat i)
                          ++ "' of undefined"))
  | VNull =>
      Throw (TypeError ("Cannot read property '" ++ NumberToString (Z.of_nat i)
                          ++ "' of null"))
  | VArray _ items => Ok (nth i items VUndefined)
  | VObject _ props =>
      Ok (match assoc (NumberToString (Z.of_nat i)) props with
          | Some x => x
          | None => VUndefined
          end)
  | VString s =>
      Ok (match String.get i s with
          | Some c => VString (String c EmptyString)
          | None => VUndefined
          end)
  | VBool _ | VNumber _ => Ok VUndefined
  end.

Definition isArray (v : value) : bool :=
  match v with VArray _ _ => true | _ => false end.

(** [===].  Same type and same value; same allocation for arrays and
    objects. *)
Definition strict_eq (x y : value) : bool :=
  match x, y with
  | VUndefined, VUndefined => true
  | VNull, VNull => true
  | VBool a, VBool b => Bool.eqb a b
  | VNumber a, VNumber b => a =? b
  | VString a, VString b => String.eqb a b
  | VArray r _, VArray r' _ => Nat.eqb r r'
  | VObject r _, VObject r' _ => Nat.eqb r r'
  | _, _ => false
  end.

Definition cannot_convert : exn :=
  TypeError "Cannot convert object to primitive value".

(** [ToString] on the values of this model.  A parsed object inherits
    [Object.prototype.toString] unless an own property of that name hides
    it; the own property is not callable, and the conversion then fails.
    An array joins its elements with commas, [null] and [undefined]
    giving the empty string. *)
Fixpoint ToString (v : value) : result string :=
  match v with
  | VUndefined => Ok "undefined"
  | VNull => Ok "null"
  | VBool true => Ok "true"
  | VBool false => Ok "false"
  | VNumber n => Ok (NumberToString n)
  | VString s => Ok s
  | VObject _ props =>
      if has_own props "toString" then Throw cannot_convert
      else Ok "[object Object]"
  | VArray _ items =>
      (fix join (l : list value) : result string :=
         match l with
         | [] => Ok ""
         | x :: rest =>
             let? sx := (if is_nullish x then Ok "" else ToString x) in
             match rest with
             | [] => Ok sx
             | _ :: _ => let? srest := join rest in Ok (sx ++ "," ++ srest)
             end
         end) items
  end.

(** [ToPrimitive]: [valueOf] of a parsed array or object gives the object
    back, so the primitive is the string. *)
Definition ToPrimitive (v : value) : result value :=
  match v with
  | VArray _ _ | VObject _ _ => let? s := ToString v in Ok (VString s)
  | _ => Ok v
  end.

(** [a && b] and [a || b] on expressions that may throw. *)
Definition js_and (a b : result value) : result value :=
  let? x := a in if truthy x then b else Ok x.

Definition js_or (a b : result value) : result value :=
  let? x := a in if truthy x then Ok x else b.

(** [e.name] and [e[i]] on an expression that may throw. *)
Definition js_prop (e : result value) (name : string) : result value :=
  let? x := e in get_prop x name.

Definition js_index (e : result value) (i : nat) : result value :=
  let? x := e in get_index x i.

Module JsNotations.
Declare Scope js_scope.
Delimit Scope js_scope with js.
Infix "&&&" := js_and (at level 40, left associativity) : js_scope.
Infix "|||" := js_or (at level 50, left associativity) : js_scope.
Infix "~>" := js_prop (at level 25, left associativity) : js_scope.
Infix "~>#" := js_index (at level 25, left associativity) : js_scope.
End JsNotations.
Import JsNotations.
Local Open Scope js_scope.

(** [a > b], reached in this program only with the length of an array on
    the left and the literal [0] on the right. *)
Definition gt (a b : value) : bool :=
  match a, b with
  | VNumber x, VNumber y => y <? x
  | _, _ => false
  end.

Definition js_gt (a : result value) (b : value) : result value :=
  let? x := a in Ok (VBool (gt x b)).

Definition js_isArray (a : result value) : result value :=
  let? x := a in Ok (VBool (isArray x)).

(** ** The clock

    [new Date().toISOString()] with the clock reading given in
    milliseconds since the epoch: [YYYY-MM-DDTHH:mm:ss.sssZ], the year
    written with a sign and six digits outside 0..9999. *)

Definition civil_from_days (days : Z) : Z * Z * Z :=
  let z := days + 719468 in
  let era := z / 146097 in
  let doe := z - era * 146097 in
  let yoe := (doe - doe / 1460 + doe / 36524 - doe / 146096) / 365 in
  let doy := doe - (365 * yoe + yoe / 4 - yoe / 100) in
  let mp := (5 * doy + 2) / 153 in
  let d := doy - (153 * mp + 2) / 5 + 1 in
  let m := if mp <? 10 then mp + 3 else mp - 9 in
  let y := yoe + era * 400 in
  (if m <=? 2 then y + 1 else y, m, d).

Fixpoint zeros (n : nat) : string :=
  match n with
  | O => ""
  | S k => String "0" (zeros k)
  end.

Definition pad (width : nat) (n : Z) : string :=
  let digits := NumberToString n in
  zeros (width - String.length digits) ++ digits.

Definition year_string (y : Z) : string :=
  if (0 <=? y) && (y <=? 9999) then pad 4 y
  else (if y <? 0 then "-" else "+") ++ pad 6 (Z.abs y).

Definition toISOString (ms : Z) : string :=
  let days := ms / 86400000 in
  let rest := ms mod 86400000 in
  let '(y, m, d) := civil_from_days days in
  year_string y ++ "-" ++ pad 2 m ++ "-" ++ pad 2 d ++ "T"
    ++ pad 2 (rest / 3600000) ++ ":"
    ++ pad 2 (rest / 60000 mod 60) ++ ":"
    ++ pad 2 (rest / 1000 mod 60) ++ "."
    ++ pad 3 (rest mod 1000) ++ "Z".

(** ** Session store (lines 60-63)

    [sessions] maps a session id to [{fbid, context}].  Its keys are
    kept in insertion order, the order [Object.keys] lists them in. *)

Record session : Type := mkSession {
  fbid : value;
  context : value
}.

Definition store : Type := list (string * session).

Definition store_get (st : store) (k : string) : option session :=
  assoc k st.

(** [sessions[k] = v]: an existing key keeps its place. *)
Fixpoint store_set (st : store) (k : string) (v : session) : store :=
  match st with
  | [] => [(k, v)]
  | (k', v') :: rest =>
      if String.eqb k' k then (k, v) :: rest
      else (k', v') :: store_set rest k v
  end.

Definition keys (st : store) : list string := map fst st.

(** ** Effects

    What the program does to the outside is recorded in order.  A
    callback that the program hands out is recorded as the data of its
    closure; a callback that the Wit library hands in is a name. *)

Inductive wit_continuation : Type :=
| WitContinuation (id : nat).

(** The arrow function of lines 103-115, with what it captures. *)
Inductive fb_callback : Type :=
| SayCallback (recipientId : value) (cb : wit_continuation).

Inductive effect : Type :=
| ConsoleLog (args : list value)
  (** [fbReq(opts, ...)] with [opts.form = {recipient: {id}, message: {text}}]
      and the [cb] the enclosing [fbMessage] was given *)
| FbReq (recipientId : value) (text : value) (cb : option fb_callback)
  (** [wit.runActions(sessionId, msg, context, ...)]; the completion
      callback of lines 204-227 captures [sender] and [sessionId] *)
| RunActions (sessionId : string) (msg : value) (context : value) (sender : value)
  (** [cb(...)] on a continuation of the Wit library *)
| CallContinuation (cb : wit_continuation) (args : list value)
| SendStatus (code : Z).

Record world : Type := mkWorld {
  sessions : store;
  next_ref : nat;
  trace : list effect
}.

Definition initial_world : world :=
  {| sessions := []; next_ref := 0; trace := [] |}.

(** A computation changes the world and returns or throws; what was done
    before a throw stays done. *)
Definition M (A : Type) : Type := world -> world * result A.

Definition ret {A : Type} (a : A) : M A := fun w => (w, Ok a).

Definition bind {A B : Type} (c : M A) (k : A -> M B) : M B :=
  fun w =>
    match c w with
    | (w', Ok a) => k a w'
    | (w', Throw e) => (w', Throw e)
    end.

Definition lift {A : Type} (r : result A) : M A := fun w => (w, r).

Definition emit (e : effect) : M unit :=
  fun w => ({| sessions := sessions w; next_ref := next_ref w;
               trace := trace w ++ [e] |}, Ok tt).

Module MNotations.
Declare Scope m_scope.
Delimit Scope m_scope with m.
Notation "x <- c ;; k" := (bind c (fun x => k))
  (at level 61, c at next level, right associativity) : m_scope.
Notation "c ;; k" := (bind c (fun _ => k))
  (at level 61, right associativity) : m_scope.
End MNotations.
Import MNotations.
Local Open Scope m_scope.

Definition console_log (args : list value) : M unit := emit (ConsoleLog args).

(** [{}] *)
Definition new_object : M value :=
  fun w => ({| sessions := sessions w; next_ref := S (next_ref w);
               trace := trace w |}, Ok (VObject (next_ref w) [])).

(** ** findOrCreateSession (lines 65-80) *)

(** The callback of the [forEach] of lines 68-73, [sessionId] being the
    variable it assigns. *)
Definition forEach_step (st : store) (fbid0 : value)
    (sessionId : option string) (k : string) : option string :=
  match store_get st k with
  | Some s => if strict_eq (fbid s) fbid0 then Some k else sessionId
  | None => sessionId
  end.

(** The loop over [Object.keys(sessions)]: the last key whose session has
    this [fbid] wins. *)
Definition forEach_key (st : store) (fbid0 : value) : option string :=
  fold_left (forEach_step st fbid0) (keys st) None.

Definition get_sessions : M store := fun w => (w, Ok (sessions w)).

(** [sessions[sessionId] = s] *)
Definition set_session (sessionId : string) (s : session) : M unit :=
  fun w => ({| sessions := store_set (sessions w) sessionId s;
               next_ref := next_ref w; trace := trace w |}, Ok tt).

(** Lines 75-78, [now] being what the clock reads. *)
Definition createSession (now : Z) (fbid0 : value) : M string :=
  let sessionId := toISOString now in
  ctx <- new_object ;;
  set_session sessionId {| fbid := fbid0; context := ctx |} ;;
  ret sessionId.

(** [!sessionId] holds of [undefined] and of the empty string. *)
Definition findOrCreateSession (now : Z) (fbid0 : value) : M string :=
  st <- get_sessions ;;
  match forEach_key st fbid0 with
  | Some k => if String.eqb k "" then createSession now fbid0 else ret k
  | None => createSession now fbid0
  end.

(** ** Outbound gateway (lines 247-263) *)

Definition fbMessage (recipientId msg : value) (cb : option fb_callback) : M unit :=
  emit (FbReq recipientId msg cb).

Definition call_continuation (cb : wit_continuation) (args : list value) : M unit :=
  emit (CallContinuation cb args).

(** Lines 103-115, run with the arguments [fbMessage] passes. *)
Definition call_fb_callback (k : fb_callback) (err data : value) : M unit :=
  match k with
  | SayCallback recipientId cb =>
      (if truthy err then
         console_log
           [VString "Oops! An error occurred while forwarding the response to";
            recipientId; VString ":"; err]
       else ret tt) ;;
      call_continuation cb []
  end.

(** The first argument of [cb] on line 260:
    [err || data.error && data.error.message]. *)
Definition gateway_error (err data : value) : result value :=
  Ok err ||| (Ok data ~> "error" &&& Ok data ~> "error" ~> "message").

(** Lines 258-262: the function the transport calls with its reply. *)
Definition fbReq_callback (cb : option fb_callback) (err resp data : value) : M unit :=
  match cb with
  | Some k =>
      e <- lift (gateway_error err data) ;;
      call_fb_callback k e data
  | None => ret tt
  end.

(** ** The [say] action (lines 96-121) *)

Definition session_field (sessionId : string) (name : string)
    (field : session -> value) : M value :=
  fun w =>
    match store_get (sessions w) sessionId with
    | Some s => (w, Ok (field s))
    | None =>
        (w, Throw (TypeError ("Cannot read property '" ++ name ++ "' of undefined")))
    end.

Definition say (sessionId : string) (context0 message : value)
    (cb : wit_continuation) : M unit :=
  recipientId <- session_field sessionId "fbid" fbid ;;
  if truthy recipientId then
    fbMessage recipientId message (Some (SayCallback recipientId cb))
  else
    console_log [VString "Oops! Couldn't find user for session:"; VString sessionId] ;;
    call_continuation cb [].

(** The own keys of a context. *)
Definition has_key (v : value) (name : string) : bool :=
  match v with
  | VObject _ props => has_own props name
  | _ => false
  end.

(** ** The other actions (lines 122-142)

    [list_schedule] sends a carousel, a request that has no text: it is
    left out, with [fbImage] and [fbCarousel]. *)

Definition merge (sessionId : string) (context0 entities message : value)
    (cb : wit_continuation) : M unit :=
  console_log [context0] ;;
  call_continuation cb [context0].

Definition lookup_tonights_schedule (sessionId : string) (context0 : value)
    (cb : wit_continuation) : M unit :=
  call_continuation cb [context0].

Definition set_reminder (sessionId : string) (context0 : value)
    (cb : wit_continuation) : M unit :=
  recipientId <- session_field sessionId "fbid" fbid ;;
  console_log [VString "set reminder..."] ;;
  console_log [context0] ;;
  call_continuation cb [context0].

(** [sessions] is a plain object (line 63): for a key that is not in the
    store, [sessions[k]] is [undefined] unless [k] names a member of
    [Object.prototype], and then it is that member, a function or for
    [__proto__] the prototype itself.  [session_field] reads the keys of
    the store; these are the names it does not speak for when the key is
    not there. *)
Definition object_prototype_member (k : string) : bool :=
  existsb (String.eqb k)
    ["constructor"; "__defineGetter__"; "__defineSetter__"; "hasOwnProperty";
     "__lookupGetter__"; "__lookupSetter__"; "isPrototypeOf";
     "propertyIsEnumerable"; "toString"; "valueOf"; "__proto__";
     "toLocaleString"].

(** ** firstEntityValue (lines 82-92) *)

Fixpoint index_member {A : Type} (key : string) (i : nat) (items : list A)
    : option A :=
  match items with
  | [] => None
  | x :: rest =>
      if String.eqb (NumberToString (Z.of_nat i)) key then Some x
      else index_member key (S i) rest
  end.

(** The own property of [v] under a computed key: a property of an
    object, an element or the length of an array, a character or the
    length of a string. *)
Definition own_member (v : value) (key : string) : option value :=
  match v with
  | VObject _ props => assoc key props
  | VArray _ items =>
      if String.eqb key "length" then Some (VNumber (Z.of_nat (List.length items)))
      else index_member key 0 items
  | VString s =>
      if String.eqb key "length" then Some (VNumber (Z.of_nat (String.length s)))
      else option_map (fun c => VString (String c EmptyString))
             (index_member key 0 (list_ascii_of_string s))
  | _ => None
  end.

(** [v[key]] for a computed key.  A key that names no own property reads
    [undefined] here.  In JavaScript it may also read a member of a
    prototype: a function, or under [__proto__] the prototype itself.
    Like [undefined], none of these is a non-empty array, and that is all
    [firstEntityValue] asks of [entities[entity]]. *)
Definition get_member (v : value) (key : string) : result value :=
  match v with
  | VUndefined =>
      Throw (TypeError ("Cannot read property '" ++ key ++ "' of undefined"))
  | VNull =>
      Throw (TypeError ("Cannot read property '" ++ key ++ "' of null"))
  | _ => Ok (match own_member v key with Some x => x | None => VUndefined end)
  end.

Definition js_member (e : result value) (key : string) : result value :=
  let? x := e in get_member x key.

(** [typeof v === 'object'] on a truthy value. *)
Definition typeof_object (v : value) : bool :=
  match v with VArray _ _ | VObject _ _ => true | _ => false end.

Definition firstEntityValue (entities : value) (entity : string) : result value :=
  let entities := Ok entities in
  let val :=
    entities &&&
    js_member entities entity &&&
    js_isArray (js_member entities entity) &&&
    js_gt (js_member entities entity ~> "length") (VNumber 0) &&&
    js_member entities entity ~># 0 ~> "value"
  in
  let? val := val in
  if negb (truthy val) then Ok VNull
  else if typeof_object val then get_prop val "value" else Ok val.

(** ** Webhook setup (lines 155-165) *)

Inductive response : Type :=
| Send (body : value)
| SendStatusCode (code : Z).

(** What [app.get('/fb')] does with a request: it answers, or throws
    [Error('missing FB_VERIFY_TOKEN')]. *)
Inductive get_outcome : Type :=
| Responds (r : response)
| MissingVerifyToken.

(** [FB_VERIFY_TOKEN] is an environment variable, a string when it is
    set; [query] are the properties of [req.query]. *)
Definition query_param (query : list (string * value)) (name : string) : value :=
  match assoc name query with Some x => x | None => VUndefined end.

Definition get_fb (FB_VERIFY_TOKEN : option string) (query : list (string * value))
    : get_outcome :=
  match FB_VERIFY_TOKEN with
  | None => MissingVerifyToken
  | Some token =>
      if String.eqb token "" then MissingVerifyToken
      else if strict_eq (query_param query "hub.mode") (VString "subscribe")
              && strict_eq (query_param query "hub.verify_token") (VString token)
      then Responds (Send (query_param query "hub.challenge"))
      else Responds (SendStatusCode 400)
  end.

(** ** The transport answering *)

(** The reply [(err, resp, data)] of the transport to a request goes to the
    function recorded with the request. *)
Definition deliver (e : effect) (err resp data : value) : M unit :=
  match e with
  | FbReq _ _ cb => fbReq_callback cb err resp data
  | _ => ret tt
  end.

Fixpoint deliver_each (es : list effect) (err resp data : value) : M unit :=
  match es with
  | [] => ret tt
  | e :: rest => deliver e err resp data ;; deliver_each rest err resp data
  end.

(** [say], then the transport's reply to what [say] sent. *)
Definition say_then_reply (sessionId : string) (context0 message : value)
    (cb : wit_continuation) (err resp data : value) : M unit :=
  fun w =>
    match say sessionId context0 message cb w with
    | (w1, Ok _) =>
        deliver_each (skipn (List.length (trace w)) (trace w1)) err resp data w1
    | (w1, Throw e) => (w1, Throw e)
    end.

Definition is_call (cb : wit_continuation) (e : effect) : bool :=
  match e, cb with
  | CallContinuation (WitContinuation i) _, WitContinuation j => Nat.eqb i j
  | _, _ => false
  end.

(** How many times [cb] was called in a stretch of the record. *)
Definition continuation_calls (cb : wit_continuation) (es : list effect) : nat :=
  List.length (filter (is_call cb) es).

(** A response body with an [error] field. *)
Definition embeds_error_field (data : value) : bool :=
  has_key data "error".

(** A run of calls [findOrCreateSession(fbid)], one per clock reading, with
    the ids they return. *)
Fixpoint findOrCreateSession_each (clock : list Z) (fbid0 : value) : M (list string) :=
  match clock with
  | [] => ret []
  | now :: later =>
      sessionId <- findOrCreateSession now fbid0 ;;
      rest <- findOrCreateSession_each later fbid0 ;;
      ret (sessionId :: rest)
  end.

(** What a JavaScript object used as [sessions] always satisfies: every
    key occurs once; and no key is empty, as every key is a time stamp. *)
Definition store_ok (st : store) : Prop :=
  NoDup (keys st) /\ ~ In "" (keys st).

(** At most one session per user. *)
Definition one_session_per_user (st : store) : Prop :=
  forall k1 k2 s1 s2,
    store_get st k1 = Some s1 -> store_get st k2 = Some s2 ->
    strict_eq (fbid s1) (fbid s2) = true -> k1 = k2.

(** ** Configuration of the examples *)

Definition example_page_id : Z := 1234567890.

Definition digit_value (c : ascii) : option Z :=
  let n := Z.of_nat (nat_of_ascii c) in
  if (48 <=? n) && (n <=? 57) then Some (n - 48) else None.

Fixpoint decimal_digits (acc : Z) (s : string) : option Z :=
  match s with
  | EmptyString => Some acc
  | String c rest =>
      match digit_value c with
      | Some d => decimal_digits (10 * acc + d) rest
      | None => None
      end
  end.

(** [ToNumber] on a string of decimal digits, the empty string being 0.
    The examples run with it; the other numerals JavaScript reads (signs,
    fractions, exponents, other bases, blanks around) occur in none. *)
Definition decimal_literal (s : string) : option Z := decimal_digits 0 s.

(** A store with one session, of user ["u1"]. *)
Definition u1_session : string := "2016-04-30T00:00:00.000Z".

Definition world_with_u1 : world :=
  {| sessions := [(u1_session,
                   {| fbid := VString "u1";
                      context := VObject 0 [("intent", VString "schedule")] |})];
     next_ref := 1;
     trace := [] |}.

(** A store whose one session has no recipient id. *)
Definition world_without_recipient : world :=
  {| sessions := [(u1_session, {| fbid := VUndefined; context := VObject 0 [] |})];
     next_ref := 1;
     trace := [] |}.

(** The body of a response that embeds an error without message. *)
Definition error_without_message : value :=
  VObject 0 [("error", VObject 1 [("code", VNumber 100)])].

(** The body of a response that embeds an error of the platform. *)
Definition error_with_message : value :=
  VObject 0 [("error", VObject 1 [("message", VString "Invalid OAuth access token.");
                                  ("code", VNumber 190)])].

Section Messenger.

(** [FB_PAGE_ID]: the page id of the configuration, a number.  The
    program refuses to start when it is missing or zero. *)
Variable FB_PAGE_ID : Z.

(** [ToNumber] on a string: the integer the text denotes, [None] when it
    denotes no integer (not a numeral, a fraction, an infinity). *)
Variable StringToNumber : string -> option Z.

Definition number_is (n : Z) (m : option Z) : bool :=
  match m with Some k => n =? k | None => false end.

(** [==] between primitives other than booleans. *)
Definition loose_eq_primitive (x y : value) : bool :=
  match x, y with
  | VNull, VUndefined | VUndefined, VNull => true
  | VNumber n, VString s => number_is n (StringToNumber s)
  | VString s, VNumber n => number_is n (StringToNumber s)
  | _, _ => strict_eq x y
  end.

Definition is_object (v : value) : bool :=
  match v with VArray _ _ | VObject _ _ => true | _ => false end.

(** [==] once booleans are numbers: an object against a string or a
    number is first made primitive. *)
Definition loose_eq_object (x y : value) : result bool :=
  match is_object x, is_object y with
  | true, true => Ok (strict_eq x y)
  | true, false =>
      match y with
      | VNumber _ | VString _ =>
          let? p := ToPrimitive x in Ok (loose_eq_primitive p y)
      | _ => Ok false
      end
  | false, true =>
      match x with
      | VNumber _ | VString _ =>
          let? p := ToPrimitive y in Ok (loose_eq_primitive x p)
      | _ => Ok false
      end
  | false, false => Ok (loose_eq_primitive x y)
  end.

Definition bool_to_number (b : bool) : value :=
  VNumber (if b then 1 else 0).

(** [x == y]. *)
Definition loose_eq (x y : value) : result bool :=
  match x, y with
  | VBool a, VBool b => Ok (Bool.eqb a b)
  | VBool a, _ => loose_eq_object (bool_to_number a) y
  | _, VBool b => loose_eq_object x (bool_to_number b)
  | _, _ => loose_eq_object x y
  end.

Definition js_loose_eq (a : result value) (b : value) : result value :=
  let? x := a in let? r := loose_eq x b in Ok (VBool r).

(** ** Inbound event router (lines 43-56) *)

Definition getFirstMessagingEntry (body : value) : result value :=
  let body := Ok body in
  let val :=
    js_loose_eq (body ~> "object") (VString "page") &&&
    body ~> "entry" &&&
    js_isArray (body ~> "entry") &&&
    js_gt (body ~> "entry" ~> "length") (VNumber 0) &&&
    body ~> "entry" ~># 0 &&&
    js_loose_eq (body ~> "entry" ~># 0 ~> "id") (VNumber FB_PAGE_ID) &&&
    body ~> "entry" ~># 0 ~> "messaging" &&&
    js_isArray (body ~> "entry" ~># 0 ~> "messaging") &&&
    js_gt (body ~> "entry" ~># 0 ~> "messaging" ~> "length") (VNumber 0) &&&
    body ~> "entry" ~># 0 ~> "messaging" ~># 0
  in
  val ||| Ok VNull.

(** ** Message handler (lines 168-232) *)

Definition js_strict_eq (a : result value) (b : value) : result value :=
  let? x := a in Ok (VBool (strict_eq x b)).

(** [c ? a : b] *)
Definition js_cond (c a b : result value) : result value :=
  let? x := c in if truthy x then a else b.

(** [sessions[sessionId].context = context] (line 225) *)
Definition set_context (sessionId : string) (context0 : value) : M unit :=
  fun w =>
    match store_get (sessions w) sessionId with
    | Some s =>
        ({| sessions := store_set (sessions w) sessionId
                          {| fbid := fbid s; context := context0 |};
            next_ref := next_ref w; trace := trace w |}, Ok tt)
    | None =>
        (w, Throw (TypeError "Cannot set property 'context' of undefined"))
    end.

(** Lines 204-227: the callback given to [wit.runActions]. *)
Definition runActions_callback (sender : value) (sessionId : string)
    (error context0 : value) : M unit :=
  if truthy error then
    console_log [VString "Oops! Got an error from Wit:"; error] ;;
    fbMessage sender (VString "Oops! Got an error from Wit") None
  else
    console_log [VString "Waiting for futher messages."] ;;
    set_context sessionId context0.

Definition runActions (sessionId : string) (msg context0 sender : value) : M unit :=
  emit (RunActions sessionId msg context0 sender).

Definition sendStatus (code : Z) : M unit := emit (SendStatus code).

(** The test of line 171. *)
Definition accepts (messaging : value) : result value :=
  let messaging := Ok messaging in
  messaging &&&
  (messaging ~> "message" ||| messaging ~> "postback") &&&
  js_strict_eq (messaging ~> "recipient" ~> "id") (VNumber FB_PAGE_ID).

Definition post_fb (now : Z) (body : value) : M unit :=
  messaging <- lift (getFirstMessagingEntry body) ;;
  accepted <- lift (accepts messaging) ;;
  let messaging := Ok messaging in
  (if truthy accepted then
     sender <- lift (messaging ~> "sender" ~> "id") ;;
     sessionId <- findOrCreateSession now sender ;;
     msg <- lift (js_cond (messaging ~> "postback")
                    (messaging ~> "postback" ~> "payload")
                    (messaging ~> "message" ~> "text")) ;;
     atts <- lift (js_cond (messaging ~> "message")
                     (messaging ~> "message" ~> "attachments")
                     (Ok VNull)) ;;
     if truthy atts then
       fbMessage sender
         (VString "Sorry I can only process text messages for now.") None
     else if truthy msg then
       console_log [VString "message: "] ;;
       console_log [msg] ;;
       context0 <- session_field sessionId "context" context ;;
       runActions sessionId msg context0 sender
     else ret tt
   else ret tt) ;;
  sendStatus 200.

(** ** Events *)

(** A page event for this page with the given messaging entries. *)
Definition page_entries (messaging : list value) : value :=
  VObject 0
    [("object", VString "page");
     ("entry",
      VArray 1
        [VObject 2
           [("id", VNumber FB_PAGE_ID);
            ("messaging", VArray 3 messaging)]])].

(** The same with one messaging entry, an object of the given fields. *)
Definition page_body (fields : list (string * value)) : value :=
  page_entries [VObject 4 fields].

(** A text message from [sender] to this page. *)
Definition text_message (sender text : string) : value :=
  page_body
    [("sender", VObject 5 [("id", VString sender)]);
     ("recipient", VObject 6 [("id", VNumber FB_PAGE_ID)]);
     ("message", VObject 7 [("text", VString text)])].

(** A text message whose messaging entry has no [recipient]. *)
Definition body_without_recipient : value :=
  page_body
    [("sender", VObject 5 [("id", VString "u1")]);
     ("message", VObject 6 [("text", VString "hi")])].

(** An event the handler accepts, from [sender], whose message carries
    attachments. *)
Definition attachment_event (body sender : value) : Prop :=
  exists messaging recipient from message atts,
    getFirstMessagingEntry body = Ok messaging /\
    truthy messaging = true /\
    get_prop messaging "recipient" = Ok recipient /\
    get_prop recipient "id" = Ok (VNumber FB_PAGE_ID) /\
    get_prop messaging "sender" = Ok from /\
    get_prop from "id" = Ok sender /\
    get_prop messaging "message" = Ok message /\
    get_prop message "attachments" = Ok atts /\
    truthy atts = true.

(** ** The worlds of the program

    The program starts with no session; then requests arrive, dispatches
    complete, the Wit library runs [say], and the transport answers, in
    any order and with any arguments. *)
Inductive reachable : world -> Prop :=
| reachable_start : reachable initial_world
| reachable_post (w : world) (now : Z) (body : value) :
    reachable w -> reachable (fst (post_fb now body w))
| reachable_completion (w : world) (sender : value) (sessionId : string)
    (error context0 : value) :
    reachable w ->
    reachable (fst (runActions_callback sender sessionId error context0 w))
| reachable_say (w : world) (sessionId : string) (context0 message : value)
    (cb : wit_continuation) :
    reachable w -> reachable (fst (say sessionId context0 message cb w))
| reachable_reply (w : world) (cb : option fb_callback) (err resp data : value) :
    reachable w -> reachable (fst (fbReq_callback cb err resp data w)).

(** ** More events *)

(** An event the handler accepts, from [sender], with a text and without
    postback or attachments. *)
Definition text_event (body sender text : value) : Prop :=
  exists messaging recipient from postback message atts,
    getFirstMessagingEntry body = Ok messaging /\
    truthy messaging = true /\
    get_prop messaging "recipient" = Ok recipient /\
    get_prop recipient "id" = Ok (VNumber FB_PAGE_ID) /\
    get_prop messaging "sender" = Ok from /\
    get_prop from "id" = Ok sender /\
    get_prop messaging "postback" = Ok postback /\
    truthy postback = false /\
    get_prop messaging "message" = Ok message /\
    get_prop message "text" = Ok text /\
    truthy text = true /\
    get_prop message "attachments" = Ok atts /\
    truthy atts = false.

(** An event the handler accepts, from [sender], with a postback of the
    given payload; its message, if it has one, carries no attachments. *)
Definition postback_event (body sender payload : value) : Prop :=
  exists messaging recipient from postback message,
    getFirstMessagingEntry body = Ok messaging /\
    truthy messaging = true /\
    get_prop messaging "recipient" = Ok recipient /\
    get_prop recipient "id" = Ok (VNumber FB_PAGE_ID) /\
    get_prop messaging "sender" = Ok from /\
    get_prop from "id" = Ok sender /\
    get_prop messaging "postback" = Ok postback /\
    truthy postback = true /\
    get_prop postback "payload" = Ok payload /\
    get_prop messaging "message" = Ok message /\
    (truthy message = false \/
     exists atts, get_prop message "attachments" = Ok atts /\ truthy atts = false).

(** An event the handler accepts, from [sender], whose message has
    neither text nor attachments, and that has no postback. *)
Definition blank_event (body sender : value) : Prop :=
  exists messaging recipient from postback message text atts,
    getFirstMessagingEntry body = Ok messaging /\
    truthy messaging = true /\
    get_prop messaging "recipient" = Ok recipient /\
    get_prop recipient "id" = Ok (VNumber FB_PAGE_ID) /\
    get_prop messaging "sender" = Ok from /\
    get_prop from "id" = Ok sender /\
    get_prop messaging "postback" = Ok postback /\
    truthy postback = false /\
    get_prop messaging "message" = Ok message /\
    truthy message = true /\
    get_prop message "text" = Ok text /\
    truthy text = false /\
    get_prop message "attachments" = Ok atts /\
    truthy atts = false.

(** A body with a first entry of the given [id] and [messaging], followed
    by more entries. *)
Definition batch (obj id : value) (messaging rest : list value) : value :=
  VObject 0
    [("object", obj);
     ("entry",
      VArray 1 (VObject 2 [("id", id); ("messaging", VArray 3 messaging)] :: rest))].

(** One thing happening: a request arrives, a dispatch completes, the Wit
    library runs [say], or the transport answers. *)
Inductive step : world -> world -> Prop :=
| step_post (w : world) (now : Z) (body : value) :
    step w (fst (post_fb now body w))
| step_completion (w : world) (sender : value) (sessionId : string)
    (error context0 : value) :
    step w (fst (runActions_callback sender sessionId error context0 w))
| step_say (w : world) (sessionId : string) (context0 message : value)
    (cb : wit_continuation) :
    step w (fst (say sessionId context0 message cb w))
| step_reply (w : world) (cb : option fb_callback) (err resp data : value) :
    step w (fst (fbReq_callback cb err resp data w)).

Definition is_dispatch (e : effect) : bool :=
  match e with RunActions _ _ _ _ => true | _ => false end.

(** The condition of the routing claim on [body], with [m] the first
    messaging entry: [object] equals ['page'], [entry] is an array whose
    first element has the page id and a non-empty [messaging] array. *)
Definition page_event (body m : value) : Prop :=
  exists obj r1 e0 es id r2 ms,
    get_prop body "object" = Ok obj /\
    loose_eq obj (VString "page") = Ok true /\
    get_prop body "entry" = Ok (VArray r1 (e0 :: es)) /\
    get_prop e0 "id" = Ok id /\
    loose_eq id (VNumber FB_PAGE_ID) = Ok true /\
    get_prop e0 "messaging" = Ok (VArray r2 (m :: ms)).

(** * Properties *)

(** ** Facts about the store *)

Lemma string_eqb_refl (k : string) : String.eqb k k = true.
Proof. apply String.eqb_eq. reflexivity. Qed.

Lemma string_eqb_neq (a b : string) : a <> b -> String.eqb a b = false.
Proof. intros H. apply String.eqb_neq. exact H. Qed.

Lemma store_get_set_same (st : store) (k : string) (v : session) :
  store_get (store_set st k v) k = Some v.
Proof.
  unfold store_get. induction st as [|[k' v'] rest IH]; simpl.
  - rewrite string_eqb_refl. reflexivity.
  - destruct (String.eqb k' k) eqn:E; simpl.
    + rewrite string_eqb_refl. reflexivity.
    + rewrite E. exact IH.
Qed.

Lemma store_get_set_other (st : store) (k k' : string) (v : session) :
  k' <> k -> store_get (store_set st k v) k' = store_get st k'.
Proof.
  intros Hne. unfold store_get. induction st as [|[k0 v0] rest IH]; simpl.
  - rewrite string_eqb_neq by congruence. reflexivity.
  - destruct (String.eqb k0 k) eqn:E; simpl.
    + apply String.eqb_eq in E. subst k0.
      rewrite string_eqb_neq by congruence. reflexivity.
    + destruct (String.eqb k0 k'); [reflexivity | exact IH].
Qed.

Lemma store_get_in_keys (st : store) (k : string) (s : session) :
  store_get st k = Some s -> In k (keys st).
Proof.
  unfold store_get. induction st as [|[k' v'] rest IH]; simpl; [discriminate|].
  destruct (String.eqb k' k) eqn:E.
  - apply String.eqb_eq in E. auto.
  - auto.
Qed.

Lemma in_keys_store_get (st : store) (k : string) :
  In k (keys st) -> exists s, store_get st k = Some s.
Proof.
  unfold store_get. induction st as [|[k' v'] rest IH]; simpl; [intros []|].
  intros [-> | Hin].
  - rewrite string_eqb_refl. eauto.
  - destruct (String.eqb k' k); eauto.
Qed.

Lemma keys_store_set_in (st : store) (k : string) (v : session) :
  In k (keys st) -> keys (store_set st k v) = keys st.
Proof.
  induction st as [|[k' v'] rest IH]; simpl; [intros []|].
  destruct (String.eqb k' k) eqn:E; simpl.
  - apply String.eqb_eq in E. subst. reflexivity.
  - apply String.eqb_neq in E. intros [H | H]; [congruence|].
    rewrite IH by exact H. reflexivity.
Qed.

Lemma keys_store_set_new (st : store) (k : string) (v : session) :
  ~ In k (keys st) -> keys (store_set st k v) = (keys st ++ [k])%list.
Proof.
  induction st as [|[k' v'] rest IH]; simpl; [reflexivity|].
  intros Hnot. destruct (String.eqb k' k) eqn:E; simpl.
  - apply String.eqb_eq in E. exfalso. apply Hnot. left. exact E.
  - rewrite IH by (intros H; apply Hnot; right; exact H). reflexivity.
Qed.

Lemma length_store_set (st : store) (k : string) (v : session) :
  (List.length (store_set st k v) <= S (List.length st))%nat.
Proof.
  induction st as [|[k' v'] rest IH]; simpl; [lia|].
  destruct (String.eqb k' k); simpl; lia.
Qed.

Lemma strict_eq_refl (v : value) : strict_eq v v = true.
Proof.
  destruct v; simpl; auto using Z.eqb_refl, string_eqb_refl, Nat.eqb_refl.
  destruct b; reflexivity.
Qed.

Lemma strict_eq_sym (x y : value) : strict_eq x y = strict_eq y x.
Proof.
  destruct x, y; simpl; auto using Z.eqb_sym, String.eqb_sym, Nat.eqb_sym.
  destruct b, b0; reflexivity.
Qed.

Lemma strict_eq_true_trans (x y z : value) :
  strict_eq x z = true -> strict_eq y z = true -> strict_eq x y = true.
Proof.
  destruct x, y, z; simpl; intros H1 H2; try discriminate; try reflexivity;
    repeat match goal with
           | H : Bool.eqb _ _ = true |- _ => apply Bool.eqb_prop in H
           | H : (_ =? _) = true |- _ => apply Z.eqb_eq in H
           | H : String.eqb _ _ = true |- _ => apply String.eqb_eq in H
           | H : Nat.eqb _ _ = true |- _ => apply Nat.eqb_eq in H
           end; subst;
    auto using Z.eqb_refl, string_eqb_refl, Nat.eqb_refl.
  destruct b1; reflexivity.
Qed.

Lemma append_nonempty (a b : string) (c : ascii) : a ++ String c b <> "".
Proof. destruct a; simpl; discriminate. Qed.

Lemma toISOString_nonempty (ms : Z) : toISOString ms <> "".
Proof.
  unfold toISOString. destruct (civil_from_days (ms / 86400000)) as [[y m] d].
  apply append_nonempty.
Qed.

Lemma store_ok_set (st : store) (k : string) (v : session) :
  store_ok st -> k <> "" -> store_ok (store_set st k v).
Proof.
  intros [Hnd Hne] Hk.
  destruct (in_dec string_dec k (keys st)) as [Hin | Hout].
  - unfold store_ok. rewrite keys_store_set_in by exact Hin. auto.
  - unfold store_ok. rewrite keys_store_set_new by exact Hout. split.
    + apply NoDup_app; [exact Hnd | constructor; [intros [] | constructor] |].
      intros x Hx [<- | []]. exact (Hout Hx).
    + rewrite in_app_iff. simpl. intros [H | [H | []]]; [exact (Hne H) | congruence].
Qed.

Lemma forEach_fold_none (st : store) (fbid0 : value) (ks : list string)
    (acc : option string) :
  fold_left (forEach_step st fbid0) ks acc = None ->
  acc = None /\
  forall k s, In k ks -> store_get st k = Some s -> strict_eq (fbid s) fbid0 = false.
Proof.
  revert acc. induction ks as [|k ks IH]; simpl; intros acc H.
  - split; [exact H | intros k s []].
  - apply IH in H. destruct H as [Hstep Hrest].
    unfold forEach_step in Hstep.
    destruct (store_get st k) as [s|] eqn:Hk.
    + destruct (strict_eq (fbid s) fbid0) eqn:Hs; [discriminate|].
      split; [exact Hstep|]. intros k' s' [<- | Hin] Hget; [congruence | eauto].
    + split; [exact Hstep|]. intros k' s' [<- | Hin] Hget; [congruence | eauto].
Qed.

Lemma forEach_fold_some (st : store) (fbid0 : value) (ks : list string)
    (acc : option string) (k : string) :
  fold_left (forEach_step st fbid0) ks acc = Some k ->
  acc = Some k \/
  (In k ks /\ exists s, store_get st k = Some s /\ strict_eq (fbid s) fbid0 = true).
Proof.
  revert acc. induction ks as [|k0 ks IH]; simpl; intros acc H.
  - auto.
  - apply IH in H.
    destruct H as [H | [Hin Hs]]; [|right; split; [right; exact Hin | exact Hs]].
    unfold forEach_step in H.
    destruct (store_get st k0) as [s|] eqn:Hk; [|auto].
    destruct (strict_eq (fbid s) fbid0) eqn:Hs; [|auto].
    injection H as <-. right. eauto.
Qed.

Lemma forEach_key_none (st : store) (fbid0 : value) :
  forEach_key st fbid0 = None ->
  forall k s, store_get st k = Some s -> strict_eq (fbid s) fbid0 = false.
Proof.
  intros H k s Hget. apply forEach_fold_none in H. destruct H as [_ H].
  eapply H; [eapply store_get_in_keys|]; eassumption.
Qed.

Lemma forEach_key_some (st : store) (fbid0 : value) (k : string) :
  forEach_key st fbid0 = Some k ->
  In k (keys st) /\
  exists s, store_get st k = Some s /\ strict_eq (fbid s) fbid0 = true.
Proof.
  intros H. apply forEach_fold_some in H. destruct H as [H | H]; [discriminate | exact H].
Qed.

Lemma forEach_key_single (k : string) (s : session) (fbid0 : value) :
  forEach_key [(k, s)] fbid0 = if strict_eq (fbid s) fbid0 then Some k else None.
Proof.
  unfold forEach_key, forEach_step, store_get. simpl.
  rewrite string_eqb_refl. reflexivity.
Qed.

(** A user with a session is found: the loop cannot end on [undefined]. *)
Lemma forEach_key_found (st : store) (fbid0 : value) (k : string) (s : session) :
  store_get st k = Some s -> strict_eq (fbid s) fbid0 = true ->
  exists k', forEach_key st fbid0 = Some k'.
Proof.
  intros Hget Hs. destruct (forEach_key st fbid0) as [k'|] eqn:E; [eauto|].
  pose proof (forEach_key_none st fbid0 E k s Hget). congruence.
Qed.

(** ** The router *)

Lemma js_and_truthy (a b : result value) (v : value) :
  a &&& b = Ok v -> truthy v = true ->
  exists x, a = Ok x /\ truthy x = true /\ b = Ok v.
Proof.
  unfold js_and. destruct a as [x|e]; [|discriminate].
  destruct (truthy x) eqn:Hx; intros H Hv.
  - exists x. auto.
  - injection H as <-. congruence.
Qed.

Lemma js_or_null (a : result value) (v : value) :
  a ||| Ok VNull = Ok v -> v = VNull \/ (a = Ok v /\ truthy v = true).
Proof.
  unfold js_or. destruct a as [x|e]; [|discriminate].
  destruct (truthy x) eqn:Hx; intros H; injection H as <-; auto.
Qed.

Lemma js_loose_eq_truthy (a : result value) (b v : value) :
  js_loose_eq a b = Ok v -> truthy v = true ->
  exists x, a = Ok x /\ loose_eq x b = Ok true.
Proof.
  unfold js_loose_eq. destruct a as [x|e]; [|discriminate].
  destruct (loose_eq x b) as [r|e] eqn:Hr; [|discriminate].
  intros H Hv. injection H as <-. simpl in Hv. subst r.
  exists x. split; [reflexivity | exact Hr].
Qed.

Lemma js_isArray_truthy (a : result value) (v : value) :
  js_isArray a = Ok v -> truthy v = true ->
  exists r items, a = Ok (VArray r items).
Proof.
  unfold js_isArray. destruct a as [x|e]; [|discriminate].
  intros H Hv. injection H as <-. destruct x; try discriminate. eauto.
Qed.

Lemma length_gt_0 (r : nat) (items : list value) (v : value) :
  js_gt (Ok (VArray r items) ~> "length") (VNumber 0) = Ok v ->
  truthy v = true ->
  exists x rest, items = x :: rest.
Proof.
  destruct items as [|x rest]; simpl; intros H Hv.
  - injection H as <-. discriminate.
  - eauto.
Qed.

Lemma loose_eq_undefined_number (n : Z) :
  loose_eq VUndefined (VNumber n) = Ok false.
Proof. reflexivity. Qed.

(** Only an object has an [id] that can equal the page id. *)
Lemma id_of_object (e0 id : value) :
  get_prop e0 "id" = Ok id ->
  loose_eq id (VNumber FB_PAGE_ID) = Ok true ->
  truthy e0 = true.
Proof.
  destruct e0; simpl; intros H Hid; try discriminate; try reflexivity;
    injection H as <-; discriminate.
Qed.

Lemma length_cons_pos {A : Type} (x : A) (l : list A) :
  (0 <? Z.of_nat (List.length (x :: l))) = true.
Proof. apply Z.ltb_lt. simpl List.length. lia. Qed.

Lemma getFirstMessagingEntry_match (body m : value) :
  page_event body m ->
  getFirstMessagingEntry body = Ok (if truthy m then m else VNull).
Proof.
  intros (obj & r1 & e0 & es & id & r2 & ms & Hobj & Hpage & Hentry & Hid & Hpid & Hmsg).
  pose proof (id_of_object e0 id Hid Hpid) as He0.
  unfold getFirstMessagingEntry, js_loose_eq, js_isArray, js_gt, js_prop, js_index.
  rewrite Hobj, Hpage, Hentry.
  cbn [js_and js_or truthy get_prop get_index nth isArray String.eqb Ascii.eqb
       Bool.eqb gt].
  rewrite (length_cons_pos e0 es).
  cbn [js_and truthy]. rewrite He0, Hid, Hpid, Hmsg.
  cbn [js_and js_or truthy get_prop get_index nth isArray String.eqb Ascii.eqb
       Bool.eqb gt].
  rewrite (length_cons_pos m ms).
  cbn [js_and js_or truthy].
  destruct (truthy m); reflexivity.
Qed.

Lemma getFirstMessagingEntry_result (body v : value) :
  getFirstMessagingEntry body = Ok v ->
  v = VNull \/ (page_event body v /\ truthy v = true).
Proof.
  unfold getFirstMessagingEntry. intros H.
  apply js_or_null in H. destruct H as [H | [H Hv]]; [left; exact H | right].
  split; [|exact Hv].
  apply js_and_truthy in H; [|exact Hv]. destruct H as (x9 & H & Hx9 & Hfirst).
  apply js_and_truthy in H; [|exact Hx9]. destruct H as (x8 & H & Hx8 & Hlen2).
  apply js_and_truthy in H; [|exact Hx8]. destruct H as (x7 & H & Hx7 & Harr2).
  apply js_and_truthy in H; [|exact Hx7]. destruct H as (x6 & H & Hx6 & Hmsg).
  apply js_and_truthy in H; [|exact Hx6]. destruct H as (x5 & H & Hx5 & Hid).
  apply js_and_truthy in H; [|exact Hx5]. destruct H as (x4 & H & Hx4 & He0).
  apply js_and_truthy in H; [|exact Hx4]. destruct H as (x3 & H & Hx3 & Hlen1).
  apply js_and_truthy in H; [|exact Hx3]. destruct H as (x2 & H & Hx2 & Harr1).
  apply js_and_truthy in H; [|exact Hx2]. destruct H as (x1 & H & Hx1 & Hentry).
  apply js_loose_eq_truthy in H; [|exact Hx1]. destruct H as (obj & Hobj & Hpage).
  apply js_isArray_truthy in Harr1; [|exact Hx3]. destruct Harr1 as (r1 & items & Harr1).
  rewrite Harr1 in *.
  apply length_gt_0 in Hlen1; [|exact Hx4]. destruct Hlen1 as (e0 & es & ->).
  apply js_loose_eq_truthy in Hid; [|exact Hx6]. destruct Hid as (id & Hid & Hpid).
  apply js_isArray_truthy in Harr2; [|exact Hx8]. destruct Harr2 as (r2 & items2 & Harr2).
  rewrite Harr2 in *.
  apply length_gt_0 in Hlen2; [|exact Hx9]. destruct Hlen2 as (m & ms & ->).
  simpl in Hfirst. injection Hfirst as <-.
  exists obj, r1, e0, es, id, r2, ms.
  repeat split; assumption.
Qed.

(** ** findOrCreateSession *)

Lemma findOrCreateSession_found (w : world) (now : Z) (fbid0 : value) (k : string) :
  store_ok (sessions w) ->
  forEach_key (sessions w) fbid0 = Some k ->
  findOrCreateSession now fbid0 w = (w, Ok k).
Proof.
  intros [_ Hne] Hk. unfold findOrCreateSession, bind, get_sessions. rewrite Hk.
  destruct (String.eqb k "") eqn:E; [|reflexivity].
  apply String.eqb_eq in E. subst k.
  apply forEach_key_some in Hk. destruct Hk as [Hin _]. exfalso. exact (Hne Hin).
Qed.

Lemma findOrCreateSession_created (w : world) (now : Z) (fbid0 : value) :
  forEach_key (sessions w) fbid0 = None ->
  findOrCreateSession now fbid0 w =
    ({| sessions := store_set (sessions w) (toISOString now)
                      {| fbid := fbid0; context := VObject (next_ref w) [] |};
        next_ref := S (next_ref w);
        trace := trace w |}, Ok (toISOString now)).
Proof.
  intros Hk. unfold findOrCreateSession, bind, get_sessions. rewrite Hk.
  reflexivity.
Qed.

Lemma findOrCreateSession_each_found (w : world) (fbid0 : value) (k : string)
    (later : list Z) :
  store_ok (sessions w) ->
  forEach_key (sessions w) fbid0 = Some k ->
  findOrCreateSession_each later fbid0 w = (w, Ok (repeat k (List.length later))).
Proof.
  intros Hok Hk. induction later as [|now later IH]; simpl; [reflexivity|].
  unfold bind. rewrite (findOrCreateSession_found w now fbid0 k Hok Hk).
  rewrite IH. reflexivity.
Qed.

(** After a session was created for a user who had none, the loop finds
    that session and no other. *)
Lemma forEach_key_after_create (st : store) (fbid0 ctx : value) (k : string) :
  forEach_key st fbid0 = None ->
  forEach_key (store_set st k {| fbid := fbid0; context := ctx |}) fbid0 = Some k.
Proof.
  intros Hnone.
  set (st' := store_set st k {| fbid := fbid0; context := ctx |}).
  destruct (forEach_key_found st' fbid0 k {| fbid := fbid0; context := ctx |})
    as [k' Hk'].
  - apply store_get_set_same.
  - apply strict_eq_refl.
  - rewrite Hk'. f_equal.
    destruct (string_dec k' k) as [Heq | Hne]; [exact Heq | exfalso].
    apply forEach_key_some in Hk'. destruct Hk' as [_ (s & Hget & Hs)].
    unfold st' in Hget. rewrite store_get_set_other in Hget by exact Hne.
    pose proof (forEach_key_none st fbid0 Hnone k' s Hget). congruence.
Qed.

Lemma one_session_per_user_create (st : store) (fbid0 ctx : value) (k : string) :
  one_session_per_user st ->
  forEach_key st fbid0 = None ->
  one_session_per_user (store_set st k {| fbid := fbid0; context := ctx |}).
Proof.
  intros Hone Hnone k1 k2 s1 s2 H1 H2 Heq.
  destruct (string_dec k1 k) as [E1 | N1], (string_dec k2 k) as [E2 | N2].
  - congruence.
  - exfalso. subst k1. rewrite store_get_set_same in H1. injection H1 as <-.
    rewrite store_get_set_other in H2 by exact N2. simpl in Heq.
    rewrite strict_eq_sym in Heq.
    pose proof (forEach_key_none st fbid0 Hnone k2 s2 H2). congruence.
  - exfalso. subst k2. rewrite store_get_set_same in H2. injection H2 as <-.
    rewrite store_get_set_other in H1 by exact N1. simpl in Heq.
    pose proof (forEach_key_none st fbid0 Hnone k1 s1 H1). congruence.
  - rewrite store_get_set_other in H1 by exact N1.
    rewrite store_get_set_other in H2 by exact N2.
    eapply Hone; eassumption.
Qed.

(** A first call [findOrCreateSession(fbid)] followed by any number of
    further calls with the same [fbid], at any clock readings, from a
    store with at most one session per user. *)
Lemma findOrCreateSession_calls
    (w : world) (fbid0 : value) (now : Z) (later : list Z) :
  store_ok (sessions w) ->
  one_session_per_user (sessions w) ->
  exists sessionId w1,
    findOrCreateSession now fbid0 w = (w1, Ok sessionId) /\
    findOrCreateSession_each later fbid0 w1 =
      (w1, Ok (repeat sessionId (List.length later))) /\
    (List.length (sessions w1) <= S (List.length (sessions w)))%nat /\
    ((exists k s, store_get (sessions w) k = Some s /\
                  strict_eq (fbid s) fbid0 = true) -> w1 = w) /\
    (exists s, store_get (sessions w1) sessionId = Some s /\
               strict_eq (fbid s) fbid0 = true) /\
    (forall k s, store_get (sessions w1) k = Some s ->
                 strict_eq (fbid s) fbid0 = true -> k = sessionId) /\
    store_ok (sessions w1) /\
    one_session_per_user (sessions w1).
Proof.
  intros Hok Hone.
  destruct (forEach_key (sessions w) fbid0) as [k|] eqn:Hk.
  - exists k, w.
    pose proof (forEach_key_some _ _ _ Hk) as [_ (s & Hget & Hs)].
    split; [apply findOrCreateSession_found; assumption|].
    split; [apply findOrCreateSession_each_found; assumption|].
    split; [lia|]. split; [reflexivity|]. split; [eauto|].
    split; [|split; assumption].
    intros k' s' Hget' Hs'. apply (Hone k' k s' s Hget' Hget).
    eapply strict_eq_true_trans; eassumption.
  - set (created := {| fbid := fbid0; context := VObject (next_ref w) [] |}).
    set (st1 := store_set (sessions w) (toISOString now) created).
    exists (toISOString now),
      {| sessions := st1; next_ref := S (next_ref w); trace := trace w |}.
    assert (Hok1 : store_ok st1)
      by (apply store_ok_set; [exact Hok | apply toISOString_nonempty]).
    assert (Hk1 : forEach_key st1 fbid0 = Some (toISOString now))
      by (apply forEach_key_after_create; exact Hk).
    assert (Hone1 : one_session_per_user st1)
      by (apply one_session_per_user_create; assumption).
    split; [apply findOrCreateSession_created; exact Hk|].
    split; [apply findOrCreateSession_each_found; assumption|].
    split; [apply length_store_set|].
    split.
    { intros (k & s & Hget & Hs).
      pose proof (forEach_key_none _ _ Hk k s Hget). congruence. }
    split.
    { exists created. split; [apply store_get_set_same | apply strict_eq_refl]. }
    split; [|split; assumption].
    intros k s Hget Hs. simpl in Hget.
    apply (Hone1 k (toISOString now) s created Hget (store_get_set_same _ _ _)).
    simpl. exact Hs.
Qed.

(** C2, on the code.  Two users who reach [findOrCreateSession] at the same
    clock reading get the same session id: the id given to the second one
    is already a key of the store, and the record of the second replaces
    the record of the first, who is left without a session. *)
Theorem findOrCreateSession_same_clock (now : Z) :
  exists w1 w2,
    findOrCreateSession now (VString "u1") initial_world
      = (w1, Ok (toISOString now)) /\
    findOrCreateSession now (VString "u2") w1 = (w2, Ok (toISOString now)) /\
    In (toISOString now) (keys (sessions w1)) /\
    sessions w2 =
      [(toISOString now, {| fbid := VString "u2"; context := VObject 1 [] |})] /\
    forEach_key (sessions w2) (VString "u1") = None.
Proof.
  set (k := toISOString now).
  exists {| sessions := [(k, {| fbid := VString "u1"; context := VObject 0 [] |})];
            next_ref := 1; trace := [] |},
         {| sessions := [(k, {| fbid := VString "u2"; context := VObject 1 [] |})];
            next_ref := 2; trace := [] |}.
  split; [reflexivity|].
  split.
  { rewrite findOrCreateSession_created
      by (cbn [sessions]; rewrite forEach_key_single; reflexivity).
    cbn [sessions next_ref trace store_set]. rewrite string_eqb_refl. reflexivity. }
  split; [left; reflexivity|].
  split; [reflexivity|].
  cbn [sessions]. rewrite forEach_key_single. reflexivity.
Qed.

(** Where the id is new: when the clock reading names no session yet, the
    record of a user without session is added at the end of the store
    with an empty context, and every session that was there stays. *)
Lemma findOrCreateSession_fresh (w : world) (now : Z) (fbid0 : value) :
  forEach_key (sessions w) fbid0 = None ->
  ~ In (toISOString now) (keys (sessions w)) ->
  exists w1,
    findOrCreateSession now fbid0 w = (w1, Ok (toISOString now)) /\
    store_get (sessions w1) (toISOString now)
      = Some {| fbid := fbid0; context := VObject (next_ref w) [] |} /\
    keys (sessions w1) = (keys (sessions w) ++ [toISOString now])%list /\
    forall k s, store_get (sessions w) k = Some s ->
                store_get (sessions w1) k = Some s.
Proof.
  intros Hk Hnew. eexists. split; [apply findOrCreateSession_created; exact Hk|].
  simpl. split; [apply store_get_set_same|].
  split; [apply keys_store_set_new; exact Hnew|].
  intros k s Hget. rewrite store_get_set_other; [exact Hget|].
  intros ->. apply Hnew. eapply store_get_in_keys. exact Hget.
Qed.

(** ** The completion callback of [runActions] *)

Lemma set_context_present (w : world) (sessionId : string) (s : session)
    (context0 : value) :
  store_get (sessions w) sessionId = Some s ->
  set_context sessionId context0 w =
    ({| sessions := store_set (sessions w) sessionId
                      {| fbid := fbid s; context := context0 |};
        next_ref := next_ref w; trace := trace w |}, Ok tt).
Proof. intros H. unfold set_context. rewrite H. reflexivity. Qed.

(** C3. When [runActions] completes with an error, its callback returns
    normally and leaves the whole session store, hence the context of the
    session, as it found it: it only logs and sends the failure notice.
    So a callback that changes the store was called without error. *)
Theorem runActions_callback_error (sender : value) (sessionId : string)
    (error context0 : value) (w : world) :
  truthy error = true ->
  exists w',
    runActions_callback sender sessionId error context0 w = (w', Ok tt) /\
    sessions w' = sessions w /\
    trace w' = (trace w ++
                [ConsoleLog [VString "Oops! Got an error from Wit:"; error];
                 FbReq sender (VString "Oops! Got an error from Wit") None])%list /\
    forall error' context',
      sessions (fst (runActions_callback sender sessionId error' context' w))
        <> sessions w ->
      truthy error' = false.
Proof.
  intros Herr. unfold runActions_callback. rewrite Herr.
  eexists. split; [reflexivity|]. simpl. split; [reflexivity|].
  split; [rewrite <- app_assoc; reflexivity|].
  intros error' context' Hchanged.
  destruct (truthy error') eqn:E; [|reflexivity].
  exfalso. apply Hchanged. reflexivity.
Qed.

(** C8. On a session of the store, an error-free completion with context
    [C] stores [C]: reading [sessions[sessionId].context] afterwards
    gives exactly [C]. *)
Theorem runActions_callback_roundtrip (sender : value) (sessionId : string)
    (error C : value) (w : world) (s : session) :
  store_get (sessions w) sessionId = Some s ->
  truthy error = false ->
  exists w',
    runActions_callback sender sessionId error C w = (w', Ok tt) /\
    session_field sessionId "context" context w' = (w', Ok C).
Proof.
  intros Hs Herr. unfold runActions_callback. rewrite Herr.
  unfold bind, console_log, emit.
  erewrite set_context_present by (simpl; exact Hs).
  eexists. split; [reflexivity|].
  unfold session_field. simpl. rewrite store_get_set_same. reflexivity.
Qed.

(** C9. An error-free completion overwrites the context of the session
    and nothing else: the stored context is the new one, so no key of the
    old context survives unless the new context has it; the [fbid] of the
    session, the other sessions and the keys of the store are as before. *)
Theorem runActions_callback_overwrites (sender : value) (sessionId : string)
    (error C : value) (w : world) (s : session) :
  store_get (sessions w) sessionId = Some s ->
  truthy error = false ->
  exists w',
    runActions_callback sender sessionId error C w = (w', Ok tt) /\
    store_get (sessions w') sessionId = Some {| fbid := fbid s; context := C |} /\
    (forall s' name,
        store_get (sessions w') sessionId = Some s' ->
        has_key (context s) name = true -> has_key C name = false ->
        has_key (context s') name = false) /\
    (forall k, k <> sessionId ->
               store_get (sessions w') k = store_get (sessions w) k) /\
    keys (sessions w') = keys (sessions w).
Proof.
  intros Hs Herr. unfold runActions_callback. rewrite Herr.
  unfold bind, console_log, emit.
  erewrite set_context_present by (simpl; exact Hs).
  eexists. split; [reflexivity|]. simpl.
  split; [apply store_get_set_same|].
  split.
  { intros s' name Hget _ Hnew. rewrite store_get_set_same in Hget.
    injection Hget as <-. exact Hnew. }
  split; [intros k Hk; apply store_get_set_other; exact Hk|].
  apply keys_store_set_in. eapply store_get_in_keys. exact Hs.
Qed.

(** ** The gateway and [say] *)

Lemma truthy_not_nullish (v : value) : truthy v = true -> is_nullish v = false.
Proof. destruct v; simpl; congruence. Qed.

Lemma get_prop_defined (v : value) (name : string) :
  is_nullish v = false -> exists x, get_prop v name = Ok x.
Proof. destruct v; simpl; intros H; try discriminate; eauto. Qed.

(** The error that reaches the callback: it is truthy exactly when [err]
    is, or when [data.error] and [data.error.message] both are. *)
Lemma gateway_error_truthy (err data : value) :
  truthy err = true \/ is_nullish data = false ->
  exists e,
    gateway_error err data = Ok e /\
    (truthy e = true <->
     truthy err = true \/
     exists er m, get_prop data "error" = Ok er /\ truthy er = true /\
                  get_prop er "message" = Ok m /\ truthy m = true).
Proof.
  intros H. unfold gateway_error, js_or, js_and, js_prop.
  destruct (truthy err) eqn:Herr.
  - exists err. split; [reflexivity|]. split; auto.
  - destruct H as [H | H]; [discriminate|].
    destruct (get_prop_defined data "error" H) as [er Her]. rewrite Her.
    destruct (truthy er) eqn:Hter.
    + destruct (get_prop_defined er "message" (truthy_not_nullish er Hter))
        as [m Hm]. rewrite Hm.
      exists m. split; [reflexivity|]. split.
      * intros Htm. right. exists er, m. auto.
      * intros [Habs | (er' & m' & Her' & _ & Hm' & Htm)]; [discriminate|].
        congruence.
    + exists er. split; [reflexivity|]. split.
      * congruence.
      * intros [Habs | (er' & m' & Her' & Hter' & _)]; [discriminate|].
        congruence.
Qed.

(** C6, as the code has it.  When the transport reports an error or
    hands over a response body, the callback given to [fbMessage] is run
    once, with an error and that body; the error is truthy exactly when
    the transport's [err] is truthy, or the body has a truthy [error]
    whose [message] is truthy. *)
Theorem fbReq_callback_error (k : fb_callback) (err resp data : value) (w : world) :
  truthy err = true \/ is_nullish data = false ->
  exists e,
    fbReq_callback (Some k) err resp data w = call_fb_callback k e data w /\
    (truthy e = true <->
     truthy err = true \/
     exists er m, get_prop data "error" = Ok er /\ truthy er = true /\
                  get_prop er "message" = Ok m /\ truthy m = true).
Proof.
  intros H. destruct (gateway_error_truthy err data H) as (e & He & Hiff).
  exists e. split; [|exact Hiff].
  unfold fbReq_callback, bind, lift. rewrite He. reflexivity.
Qed.

Lemma skipn_length_app {A : Type} (l l' : list A) :
  skipn (List.length l) (l ++ l') = l'.
Proof. induction l as [|x l IH]; simpl; [reflexivity | exact IH]. Qed.

(** What the callback of [say] does with any reply that reaches it: it
    may log, and calls [cb] once. *)
Lemma call_fb_callback_say (recipientId : value) (cb : wit_continuation)
    (err data : value) (w : world) :
  exists added,
    call_fb_callback (SayCallback recipientId cb) err data w =
      ({| sessions := sessions w; next_ref := next_ref w;
          trace := trace w ++ added |}, Ok tt) /\
    continuation_calls cb added = 1%nat.
Proof.
  unfold call_fb_callback, bind, console_log, call_continuation, emit, ret.
  destruct cb as [i]. destruct (truthy err); simpl.
  - eexists [_; _]. rewrite <- app_assoc. split; [reflexivity|].
    unfold continuation_calls. simpl. rewrite Nat.eqb_refl. reflexivity.
  - eexists [_]. split; [reflexivity|].
    unfold continuation_calls. simpl. rewrite Nat.eqb_refl. reflexivity.
Qed.

(** The paths of [say] on which [cb] is called.  On a session of the
    store, [say] followed by the reply of the transport calls [cb] exactly
    once, returns and leaves the store alone, when the session has no
    recipient id (no request is sent then), and when it has one and the
    reply reports an error or hands over a response body. *)
Theorem say_calls_cb_once (sessionId : string) (context0 message : value)
    (cb : wit_continuation) (err resp data : value) (w : world) (s : session) :
  store_get (sessions w) sessionId = Some s ->
  truthy (fbid s) = false \/ truthy err = true \/ is_nullish data = false ->
  exists w' added,
    say_then_reply sessionId context0 message cb err resp data w = (w', Ok tt) /\
    trace w' = (trace w ++ added)%list /\
    continuation_calls cb added = 1%nat /\
    sessions w' = sessions w.
Proof.
  intros Hs Hreply.
  unfold say_then_reply, say, bind, session_field. rewrite Hs.
  destruct (truthy (fbid s)) eqn:Hto.
  - destruct Hreply as [Hnone | Hreply]; [discriminate|].
    unfold fbMessage, emit. cbn [trace]. rewrite skipn_length_app.
    cbn [deliver_each deliver]. unfold bind.
    destruct (gateway_error_truthy err data Hreply) as (e & He & _).
    unfold fbReq_callback, bind, lift. rewrite He.
    match goal with
    | |- context [call_fb_callback ?k e data ?w0] =>
        destruct (call_fb_callback_say (fbid s) cb e data w0)
          as (added & Hrun & Hcount)
    end.
    rewrite Hrun. cbn [ret].
    eexists. exists (FbReq (fbid s) message (Some (SayCallback (fbid s) cb)) :: added).
    split; [reflexivity|]. cbn [trace sessions].
    split; [rewrite <- app_assoc; reflexivity|].
    split; [exact Hcount | reflexivity].
  - unfold console_log, call_continuation, emit. cbn [trace].
    rewrite <- app_assoc.
    rewrite skipn_length_app. cbn [deliver_each deliver ret bind].
    eexists. eexists [_; _].
    split; [reflexivity|]. cbn [trace sessions].
    split; [reflexivity|].
    split; [|reflexivity].
    unfold continuation_calls. destruct cb as [i]. simpl.
    rewrite Nat.eqb_refl. reflexivity.
Qed.

Lemma continuation_calls_app (cb : wit_continuation) (l l' : list effect) :
  continuation_calls cb (l ++ l') =
  (continuation_calls cb l + continuation_calls cb l')%nat.
Proof.
  unfold continuation_calls. rewrite filter_app. apply length_app.
Qed.

(** C7, on the code.  On a session with a recipient id, when the transport
    reports no error and hands over no body ([data] is [undefined] or
    [null]), the function of lines 258-262 throws at [data.error]: the
    request has gone out, the callback of [say] never runs, and [cb] is
    not called. *)
Theorem say_reply_without_body_throws (sessionId : string)
    (context0 message : value) (cb : wit_continuation) (err resp data : value)
    (w : world) (s : session) :
  store_get (sessions w) sessionId = Some s ->
  truthy (fbid s) = true ->
  truthy err = false ->
  is_nullish data = true ->
  exists w' e,
    say_then_reply sessionId context0 message cb err resp data w = (w', Throw e) /\
    get_prop data "error" = Throw e /\
    sessions w' = sessions w /\
    trace w' =
      (trace w ++ [FbReq (fbid s) message (Some (SayCallback (fbid s) cb))])%list /\
    continuation_calls cb (trace w') = continuation_calls cb (trace w).
Proof.
  intros Hs Hto Herr Hdata.
  assert (Hthrow : exists e, get_prop data "error" = Throw e /\
                             gateway_error err data = Throw e).
  { unfold gateway_error, js_or, js_and, js_prop. rewrite Herr.
    destruct data; try discriminate Hdata; eexists; split; reflexivity. }
  destruct Hthrow as (e & Hprop & He).
  eexists. exists e.
  split; [|split; [exact Hprop|]].
  - unfold say_then_reply, say, bind, session_field. rewrite Hs, Hto.
    unfold fbMessage, emit. cbn [trace]. rewrite skipn_length_app.
    cbn [deliver_each deliver]. unfold bind, fbReq_callback, bind, lift.
    rewrite He. reflexivity.
  - cbn [sessions trace]. split; [reflexivity|]. split; [reflexivity|].
    rewrite continuation_calls_app. unfold continuation_calls at 2.
    cbn [filter is_call List.length]. apply Nat.add_0_r.
Qed.

(** ** The router, as a whole *)

(** C5, as the code has it.  When [body.object] equals ['page'],
    [body.entry] is a non-empty array, the [id] of its first element
    equals the page id and its [messaging] is a non-empty array, the
    router returns the first messaging entry if that entry is truthy and
    [null] if it is not; and whatever the router returns is [null] or such
    a first messaging entry. *)
Theorem getFirstMessagingEntry_routes (body : value) :
  (forall m, page_event body m ->
             getFirstMessagingEntry body = Ok (if truthy m then m else VNull)) /\
  (forall v, getFirstMessagingEntry body = Ok v ->
             v = VNull \/ (page_event body v /\ truthy v = true)).
Proof.
  split.
  - intros m. apply getFirstMessagingEntry_match.
  - intros v. apply getFirstMessagingEntry_result.
Qed.

(** ** At any time *)

Lemma store_invariant_context (st : store) (k : string) (s : session) (ctx : value) :
  store_get st k = Some s ->
  store_ok st /\ one_session_per_user st ->
  store_ok (store_set st k {| fbid := fbid s; context := ctx |}) /\
  one_session_per_user (store_set st k {| fbid := fbid s; context := ctx |}).
Proof.
  intros Hs [[Hnd Hne] Hone].
  pose proof (store_get_in_keys st k s Hs) as Hin.
  split.
  - unfold store_ok. rewrite keys_store_set_in by exact Hin. split; assumption.
  - intros k1 k2 s1 s2 H1 H2 Heq.
    destruct (string_dec k1 k) as [E1 | N1], (string_dec k2 k) as [E2 | N2].
    + congruence.
    + subst k1. rewrite store_get_set_same in H1. injection H1 as <-.
      rewrite store_get_set_other in H2 by exact N2.
      exact (Hone k k2 s s2 Hs H2 Heq).
    + subst k2. rewrite store_get_set_same in H2. injection H2 as <-.
      rewrite store_get_set_other in H1 by exact N1.
      exact (Hone k1 k s1 s H1 Hs Heq).
    + rewrite store_get_set_other in H1 by exact N1.
      rewrite store_get_set_other in H2 by exact N2.
      exact (Hone k1 k2 s1 s2 H1 H2 Heq).
Qed.

Lemma findOrCreateSession_invariant (now : Z) (fbid0 : value) (w : world) :
  store_ok (sessions w) /\ one_session_per_user (sessions w) ->
  store_ok (sessions (fst (findOrCreateSession now fbid0 w))) /\
  one_session_per_user (sessions (fst (findOrCreateSession now fbid0 w))).
Proof.
  intros [Hok Hone].
  destruct (findOrCreateSession_calls w fbid0 now [] Hok Hone)
    as (sessionId & w1 & Hrun & _ & _ & _ & _ & _ & Hok1 & Hone1).
  rewrite Hrun. split; assumption.
Qed.

Lemma runActions_callback_invariant (sender : value) (sessionId : string)
    (error context0 : value) (w : world) :
  store_ok (sessions w) /\ one_session_per_user (sessions w) ->
  store_ok (sessions (fst (runActions_callback sender sessionId error context0 w))) /\
  one_session_per_user
    (sessions (fst (runActions_callback sender sessionId error context0 w))).
Proof.
  intros Hinv. unfold runActions_callback, bind, console_log, fbMessage, emit,
    set_context.
  destruct (truthy error); cbn [fst sessions]; [exact Hinv|].
  destruct (store_get (sessions w) sessionId) as [s|] eqn:Hs; cbn [fst sessions].
  - apply store_invariant_context; assumption.
  - exact Hinv.
Qed.

Lemma say_sessions (sessionId : string) (context0 message : value)
    (cb : wit_continuation) (w : world) :
  sessions (fst (say sessionId context0 message cb w)) = sessions w.
Proof.
  unfold say, bind, session_field, fbMessage, console_log, call_continuation, emit.
  destruct (store_get (sessions w) sessionId) as [s|]; [|reflexivity].
  destruct (truthy (fbid s)); reflexivity.
Qed.

Lemma fbReq_callback_sessions (cb : option fb_callback) (err resp data : value)
    (w : world) :
  sessions (fst (fbReq_callback cb err resp data w)) = sessions w.
Proof.
  unfold fbReq_callback, bind, lift. destruct cb as [[recipientId k]|]; [|reflexivity].
  destruct (gateway_error err data) as [e|e]; [|reflexivity].
  unfold call_fb_callback, bind, console_log, call_continuation, emit, ret.
  destruct (truthy e); reflexivity.
Qed.

(** The handler changes the store through [findOrCreateSession] only. *)
Lemma post_fb_sessions (now : Z) (body : value) (w : world) :
  sessions (fst (post_fb now body w)) = sessions w \/
  exists sender,
    sessions (fst (post_fb now body w))
      = sessions (fst (findOrCreateSession now sender w)).
Proof.
  unfold post_fb, bind, lift.
  destruct (getFirstMessagingEntry body) as [messaging|e]; [|left; reflexivity].
  destruct (accepts messaging) as [accepted|e]; [|left; reflexivity].
  destruct (truthy accepted); [|left; reflexivity].
  destruct (Ok messaging ~> "sender" ~> "id") as [sender|e]; [|left; reflexivity].
  right. exists sender.
  destruct (findOrCreateSession now sender w) as [w1 [sessionId|e]]; [|reflexivity].
  destruct (js_cond _ _ _) as [msg|e]; [|reflexivity].
  destruct (js_cond _ _ _) as [atts|e]; [|reflexivity].
  destruct (truthy atts); [reflexivity|].
  destruct (truthy msg); [|reflexivity].
  unfold console_log, emit, session_field. cbn [sessions].
  destruct (store_get (sessions w1) sessionId); reflexivity.
Qed.

(** At any time the store is well formed and holds at most one session
    per user. *)
Lemma reachable_invariant (w : world) :
  reachable w -> store_ok (sessions w) /\ one_session_per_user (sessions w).
Proof.
  induction 1 as [|w now body _ IH|w sender sessionId error context0 _ IH
                  |w sessionId context0 message cb _ IH|w cb err resp data _ IH].
  - split; [split; [constructor | intros []] | intros k1 k2 s1 s2 H; discriminate H].
  - destruct (post_fb_sessions now body w) as [-> | [sender ->]];
      [exact IH | apply findOrCreateSession_invariant; exact IH].
  - apply runActions_callback_invariant. exact IH.
  - rewrite say_sessions. exact IH.
  - rewrite fbReq_callback_sessions. exact IH.
Qed.


(** ** The message handler *)

Lemma page_body_event (fields : list (string * value)) :
  page_event (page_body fields) (VObject 4 fields).
Proof.
  unfold page_event, page_body, page_entries.
  exists (VString "page"), 1%nat,
    (VObject 2 [("id", VNumber FB_PAGE_ID);
                ("messaging", VArray 3 [VObject 4 fields])]),
    [], (VNumber FB_PAGE_ID), 3%nat, [].
  unfold page_entries.
  repeat split; try reflexivity.
  unfold loose_eq, loose_eq_object, loose_eq_primitive. simpl.
  rewrite Z.eqb_refl. reflexivity.
Qed.

(** C4, on the code.  A text message for this page whose messaging entry
    has no [recipient] makes the handler throw at
    [messaging.recipient.id]: nothing is sent back, status 200 included. *)
Theorem post_fb_without_recipient (now : Z) (w : world) :
  post_fb now body_without_recipient w =
    (w, Throw (TypeError "Cannot read property 'id' of undefined")).
Proof.
  unfold post_fb, bind, lift, body_without_recipient.
  rewrite (getFirstMessagingEntry_match _ _ (page_body_event _)).
  reflexivity.
Qed.

(** What the router does not match, or line 171 does not accept, is only
    acknowledged. *)
Lemma post_fb_ignored (now : Z) (body messaging accepted : value) (w : world) :
  getFirstMessagingEntry body = Ok messaging ->
  accepts messaging = Ok accepted ->
  truthy accepted = false ->
  post_fb now body w =
    ({| sessions := sessions w; next_ref := next_ref w;
        trace := trace w ++ [SendStatus 200] |}, Ok tt).
Proof.
  intros Hm Ha Hf. unfold post_fb, bind, lift. rewrite Hm, Ha, Hf. reflexivity.
Qed.

Lemma post_fb_no_match (now : Z) (body : value) (w : world) :
  getFirstMessagingEntry body = Ok VNull ->
  post_fb now body w =
    ({| sessions := sessions w; next_ref := next_ref w;
        trace := trace w ++ [SendStatus 200] |}, Ok tt).
Proof.
  intros Hm. apply (post_fb_ignored now body VNull VNull); auto.
Qed.

(** [findOrCreateSession] always returns, and does nothing outside the
    store. *)
Lemma findOrCreateSession_returns (now : Z) (fbid0 : value) (w : world) :
  exists sessionId w1,
    findOrCreateSession now fbid0 w = (w1, Ok sessionId) /\
    trace w1 = trace w.
Proof.
  unfold findOrCreateSession, bind, get_sessions.
  destruct (forEach_key (sessions w) fbid0) as [k|];
    [destruct (String.eqb k "")|]; do 2 eexists; split; reflexivity.
Qed.

Lemma js_cond_defined (c : value) (a b : result value) :
  (truthy c = true -> exists x, a = Ok x) ->
  (truthy c = false -> exists x, b = Ok x) ->
  exists x, js_cond (Ok c) a b = Ok x.
Proof.
  unfold js_cond. destruct (truthy c); auto.
Qed.


(** * More of the program *)

(** ** The handler, case by case *)

Lemma js_or_truthy (a b : result value) (v : value) :
  a ||| b = Ok v -> truthy v = true ->
  a = Ok v \/ exists x, a = Ok x /\ truthy x = false /\ b = Ok v.
Proof.
  unfold js_or. destruct a as [x|e]; [|discriminate].
  destruct (truthy x) eqn:Hx; intros H Hv.
  - left. exact H.
  - right. exists x. auto.
Qed.

(** What line 171 lets through has a truthy [message] or [postback]. *)
Lemma accepts_payload (messaging accepted : value) :
  accepts messaging = Ok accepted -> truthy accepted = true ->
  truthy messaging = true /\
  exists message postback,
    get_prop messaging "message" = Ok message /\
    get_prop messaging "postback" = Ok postback /\
    (truthy message = true \/ truthy postback = true).
Proof.
  unfold accepts. intros H Ha.
  apply js_and_truthy in H; [|exact Ha]. destruct H as (x2 & H & Hx2 & _).
  apply js_and_truthy in H; [|exact Hx2]. destruct H as (x1 & H & Hx1 & Hor).
  injection H as <-. split; [exact Hx1|].
  destruct (get_prop_defined messaging "message" (truthy_not_nullish _ Hx1))
    as [message Hm].
  destruct (get_prop_defined messaging "postback" (truthy_not_nullish _ Hx1))
    as [postback Hp].
  exists message, postback. split; [exact Hm|]. split; [exact Hp|].
  unfold js_prop in Hor. rewrite Hm, Hp in Hor.
  apply js_or_truthy in Hor; [|exact Hx2].
  destruct Hor as [Hor | (x & Hor & _ & Hb)].
  - injection Hor as ->. left. exact Hx2.
  - injection Hb as ->. right. exact Hx2.
Qed.

(** The session [findOrCreateSession] returns is in the store afterwards
    and is a session of this user, in any world. *)
Lemma findOrCreateSession_session (now : Z) (fbid0 : value) (w : world) :
  exists sessionId w1 s,
    findOrCreateSession now fbid0 w = (w1, Ok sessionId) /\
    store_get (sessions w1) sessionId = Some s /\
    strict_eq (fbid s) fbid0 = true /\
    trace w1 = trace w.
Proof.
  unfold findOrCreateSession, bind, get_sessions.
  destruct (forEach_key (sessions w) fbid0) as [k|] eqn:Hk.
  - destruct (String.eqb k "").
    + do 3 eexists. split; [reflexivity|]. cbn [sessions trace].
      split; [apply store_get_set_same|]. split; [apply strict_eq_refl | reflexivity].
    + apply forEach_key_some in Hk. destruct Hk as [_ (s & Hget & Hs)].
      exists k, w, s. auto.
  - do 3 eexists. split; [reflexivity|]. cbn [sessions trace].
    split; [apply store_get_set_same|]. split; [apply strict_eq_refl | reflexivity].
Qed.

(** The cases of the handler. *)
Lemma post_fb_cases (now : Z) (body : value) (w : world) :
  (exists e, post_fb now body w = (w, Throw e)) \/
  post_fb now body w =
    ({| sessions := sessions w; next_ref := next_ref w;
        trace := trace w ++ [SendStatus 200] |}, Ok tt) \/
  exists sender sessionId w1 s added,
    findOrCreateSession now sender w = (w1, Ok sessionId) /\
    store_get (sessions w1) sessionId = Some s /\
    strict_eq (fbid s) sender = true /\
    post_fb now body w =
      ({| sessions := sessions w1; next_ref := next_ref w1;
          trace := trace w ++ added |}, Ok tt) /\
    (added = [FbReq sender
                (VString "Sorry I can only process text messages for now.") None;
              SendStatus 200] \/
     (exists msg, truthy msg = true /\
                  added = [ConsoleLog [VString "message: "]; ConsoleLog [msg];
                           RunActions sessionId msg (context s) sender;
                           SendStatus 200]) \/
     added = [SendStatus 200]).
Proof.
  unfold post_fb, bind, lift.
  destruct (getFirstMessagingEntry body) as [messaging|e]; [|left; eauto].
  destruct (accepts messaging) as [accepted|e] eqn:Hacc; [|left; eauto].
  destruct (truthy accepted) eqn:Hta; [|right; left; reflexivity].
  destruct (accepts_payload messaging accepted Hacc Hta)
    as (Htm & message & postback & Hm & Hp & Hpayload).
  destruct (Ok messaging ~> "sender" ~> "id") as [sender|e]; [|left; eauto].
  right. right.
  destruct (findOrCreateSession_session now sender w)
    as (sessionId & w1 & s & Hfind & Hget & Hs & Htrace).
  exists sender, sessionId, w1, s. rewrite Hfind.
  unfold js_prop, js_cond. rewrite Hp, Hm.
  assert (Hmsg : exists msg,
             (if truthy postback then get_prop postback "payload"
              else get_prop message "text") = Ok msg).
  { destruct (truthy postback) eqn:Htp.
    - apply get_prop_defined, truthy_not_nullish, Htp.
    - destruct Hpayload as [Htmsg | Habs]; [|discriminate].
      apply get_prop_defined, truthy_not_nullish, Htmsg. }
  destruct Hmsg as [msg Hmsg]. rewrite Hmsg.
  assert (Hatts : exists atts,
             (if truthy message then get_prop message "attachments" else Ok VNull)
             = Ok atts).
  { destruct (truthy message) eqn:Htmsg; [|eauto].
    apply get_prop_defined, truthy_not_nullish, Htmsg. }
  destruct Hatts as [atts Hatts]. rewrite Hatts.
  destruct (truthy atts).
  - eexists. split; [reflexivity|]. split; [exact Hget|]. split; [exact Hs|].
    unfold fbMessage, sendStatus, emit. cbn [sessions next_ref trace].
    rewrite Htrace, <- app_assoc. split; [reflexivity | left; reflexivity].
  - destruct (truthy msg) eqn:Htmsg.
    + eexists. split; [reflexivity|]. split; [exact Hget|]. split; [exact Hs|].
      unfold console_log, runActions, sendStatus, session_field, emit.
      cbn [sessions next_ref trace]. rewrite Hget.
      cbn [sessions next_ref trace]. rewrite Htrace, <- !app_assoc.
      split; [reflexivity|]. right. left. exists msg. split; [exact Htmsg | reflexivity].
    + eexists. split; [reflexivity|]. split; [exact Hget|]. split; [exact Hs|].
      unfold sendStatus, emit, ret. cbn [sessions next_ref trace].
      rewrite Htrace. split; [reflexivity | right; right; reflexivity].
Qed.

(** X1. Everything the handler can do with a request.  It throws, and then
    nothing has happened; or it only answers 200; or it has looked up or
    created the session of the sender and then sent the fixed reply to
    attachments, or started one dispatch with the text and the stored
    context of that session, or neither, and answers 200. *)
Theorem post_fb_behaviours (now : Z) (body : value) (w : world) :
  (exists e, post_fb now body w = (w, Throw e)) \/
  post_fb now body w =
    ({| sessions := sessions w; next_ref := next_ref w;
        trace := trace w ++ [SendStatus 200] |}, Ok tt) \/
  exists sender sessionId w1 s added,
    findOrCreateSession now sender w = (w1, Ok sessionId) /\
    store_get (sessions w1) sessionId = Some s /\
    strict_eq (fbid s) sender = true /\
    post_fb now body w =
      ({| sessions := sessions w1; next_ref := next_ref w1;
          trace := trace w ++ added |}, Ok tt) /\
    (added = [FbReq sender
                (VString "Sorry I can only process text messages for now.") None;
              SendStatus 200] \/
     (exists msg, truthy msg = true /\
                  added = [ConsoleLog [VString "message: "]; ConsoleLog [msg];
                           RunActions sessionId msg (context s) sender;
                           SendStatus 200]) \/
     added = [SendStatus 200]).
Proof. exact (post_fb_cases now body w). Qed.

Lemma forEach_key_absent (st : store) (fbid0 : value) :
  (forall k s, store_get st k = Some s -> strict_eq (fbid s) fbid0 = false) ->
  forEach_key st fbid0 = None.
Proof.
  intros Hnone. destruct (forEach_key st fbid0) as [k|] eqn:Hk; [|reflexivity].
  apply forEach_key_some in Hk. destruct Hk as [_ (s & Hget & Hs)].
  rewrite (Hnone k s Hget) in Hs. discriminate.
Qed.

(** The session the handler works with: the one the sender had, and then
    the store is as it was, or a new one with an empty context. *)
Lemma findOrCreateSession_reachable (now : Z) (sender : value) (w : world) :
  reachable w ->
  exists sessionId w1 s,
    findOrCreateSession now sender w = (w1, Ok sessionId) /\
    store_get (sessions w1) sessionId = Some s /\
    strict_eq (fbid s) sender = true /\
    trace w1 = trace w /\
    ((exists k s0, store_get (sessions w) k = Some s0 /\
                   strict_eq (fbid s0) sender = true) ->
     w1 = w) /\
    ((forall k s0, store_get (sessions w) k = Some s0 ->
                   strict_eq (fbid s0) sender = false) ->
     context s = VObject (next_ref w) []).
Proof.
  intros Hreach. destruct (reachable_invariant w Hreach) as [Hok Hone].
  destruct (findOrCreateSession_calls w sender now [] Hok Hone)
    as (sessionId & w1 & Hfind & _ & _ & Hsame & (s & Hget & Hs) & _).
  exists sessionId, w1, s. split; [exact Hfind|]. split; [exact Hget|].
  split; [exact Hs|].
  destruct (findOrCreateSession_returns now sender w) as (i & w' & Hret & Htrace).
  rewrite Hfind in Hret. injection Hret as <- <-.
  split; [exact Htrace|]. split; [exact Hsame|].
  intros Hnew. apply forEach_key_absent in Hnew.
  rewrite (findOrCreateSession_created w now sender Hnew) in Hfind.
  injection Hfind as <- <-. cbn [sessions] in Hget.
  rewrite store_get_set_same in Hget. injection Hget as <-. reflexivity.
Qed.

(** The handler on an accepted event whose text [msg] is to be
    dispatched. *)
Lemma post_fb_dispatch (now : Z) (body messaging sender msg atts : value)
    (w : world) :
  reachable w ->
  getFirstMessagingEntry body = Ok messaging ->
  accepts messaging = Ok (VBool true) ->
  Ok messaging ~> "sender" ~> "id" = Ok sender ->
  js_cond (Ok messaging ~> "postback") (Ok messaging ~> "postback" ~> "payload")
    (Ok messaging ~> "message" ~> "text") = Ok msg ->
  js_cond (Ok messaging ~> "message") (Ok messaging ~> "message" ~> "attachments")
    (Ok VNull) = Ok atts ->
  truthy atts = false ->
  exists sessionId w1 s,
    findOrCreateSession now sender w = (w1, Ok sessionId) /\
    store_get (sessions w1) sessionId = Some s /\
    strict_eq (fbid s) sender = true /\
    post_fb now body w =
      ({| sessions := sessions w1; next_ref := next_ref w1;
          trace := trace w ++
                   (if truthy msg then
                      [ConsoleLog [VString "message: "]; ConsoleLog [msg];
                       RunActions sessionId msg (context s) sender;
                       SendStatus 200]
                    else [SendStatus 200]) |}, Ok tt) /\
    ((exists k s0, store_get (sessions w) k = Some s0 /\
                   strict_eq (fbid s0) sender = true) ->
     w1 = w) /\
    ((forall k s0, store_get (sessions w) k = Some s0 ->
                   strict_eq (fbid s0) sender = false) ->
     context s = VObject (next_ref w) []).
Proof.
  intros Hreach Hm Hacc Hsender Hmsg Hatts Htatts.
  destruct (findOrCreateSession_reachable now sender w Hreach)
    as (sessionId & w1 & s & Hfind & Hget & Hs & Htrace & Hsame & Hnew).
  exists sessionId, w1, s. split; [exact Hfind|]. split; [exact Hget|].
  split; [exact Hs|]. split; [|split; assumption].
  unfold post_fb, bind, lift. rewrite Hm, Hacc. cbn [truthy].
  rewrite Hsender, Hfind, Hmsg, Hatts, Htatts.
  destruct (truthy msg).
  - unfold console_log, runActions, sendStatus, session_field, emit.
    cbn [sessions next_ref trace]. rewrite Hget.
    cbn [sessions next_ref trace]. rewrite Htrace, <- !app_assoc. reflexivity.
  - unfold sendStatus, emit, ret. cbn [sessions next_ref trace].
    rewrite Htrace. reflexivity.
Qed.

Lemma accepts_recipient (messaging recipient payload : value) :
  truthy messaging = true ->
  (Ok messaging ~> "message" ||| Ok messaging ~> "postback") = Ok payload ->
  truthy payload = true ->
  get_prop messaging "recipient" = Ok recipient ->
  get_prop recipient "id" = Ok (VNumber FB_PAGE_ID) ->
  accepts messaging = Ok (VBool true).
Proof.
  intros Htm Hor Htp Hrcp Hrid. unfold accepts. rewrite Hor.
  unfold js_and. rewrite Htm. cbn iota. rewrite Htp.
  unfold js_strict_eq, js_prop. rewrite Hrcp, Hrid. simpl.
  rewrite Z.eqb_refl. reflexivity.
Qed.

(** The handler on a text message. *)
Lemma post_fb_text_dispatch (now : Z) (body sender text : value) (w : world) :
  reachable w ->
  text_event body sender text ->
  exists sessionId w1 s,
    findOrCreateSession now sender w = (w1, Ok sessionId) /\
    store_get (sessions w1) sessionId = Some s /\
    strict_eq (fbid s) sender = true /\
    post_fb now body w =
      ({| sessions := sessions w1; next_ref := next_ref w1;
          trace := trace w ++
                   [ConsoleLog [VString "message: "]; ConsoleLog [text];
                    RunActions sessionId text (context s) sender;
                    SendStatus 200] |}, Ok tt) /\
    ((exists k s0, store_get (sessions w) k = Some s0 /\
                   strict_eq (fbid s0) sender = true) ->
     w1 = w) /\
    ((forall k s0, store_get (sessions w) k = Some s0 ->
                   strict_eq (fbid s0) sender = false) ->
     context s = VObject (next_ref w) []).
Proof.
  intros Hreach (messaging & recipient & from & postback & message & atts &
                 Hm & Htm & Hrcp & Hrid & Hfrom & Hsender & Hp & Htp &
                 Hmsg & Htext & Httext & Hatts & Htatts).
  assert (Htmsg : truthy message = true).
  { destruct message; simpl in Htext; try discriminate; try reflexivity;
      injection Htext as <-; discriminate. }
  destruct (post_fb_dispatch now body messaging sender text atts w Hreach Hm)
    as (sessionId & w1 & s & H1 & H2 & H3 & H4 & H5).
  - apply (accepts_recipient messaging recipient message); try assumption.
    unfold js_prop, js_or. rewrite Hmsg, Htmsg. reflexivity.
  - unfold js_prop. rewrite Hfrom. exact Hsender.
  - unfold js_prop, js_cond. rewrite Hp, Htp, Hmsg. exact Htext.
  - unfold js_prop, js_cond. rewrite Hmsg, Htmsg. exact Hatts.
  - exact Htatts.
  - exists sessionId, w1, s. rewrite Httext in H4. repeat split; try assumption.
    + apply H5.
    + apply H5.
Qed.




(** ** Sessions over time *)

Lemma store_set_keeps (st : store) (k k' : string) (s v : session) :
  store_get st k = Some s -> exists s', store_get (store_set st k' v) k = Some s'.
Proof.
  intros Hget. destruct (string_dec k k') as [-> | Hne].
  - exists v. apply store_get_set_same.
  - exists s. rewrite store_get_set_other by exact Hne. exact Hget.
Qed.

Lemma findOrCreateSession_keeps (now : Z) (fbid0 : value) (w : world)
    (k : string) (s : session) :
  store_get (sessions w) k = Some s ->
  exists s', store_get (sessions (fst (findOrCreateSession now fbid0 w))) k = Some s'.
Proof.
  intros Hget. unfold findOrCreateSession, bind, get_sessions.
  destruct (forEach_key (sessions w) fbid0) as [k0|];
    [destruct (String.eqb k0 "")|]; simpl;
    solve [eexists; exact Hget | eapply store_set_keeps; exact Hget].
Qed.

Lemma runActions_callback_keeps (sender : value) (sessionId : string)
    (error context0 : value) (w : world) (k : string) (s : session) :
  store_get (sessions w) k = Some s ->
  exists s',
    store_get (sessions (fst (runActions_callback sender sessionId error context0 w))) k
    = Some s'.
Proof.
  intros Hget.
  unfold runActions_callback, bind, console_log, fbMessage, emit, set_context.
  destruct (truthy error); cbn [fst sessions]; [eauto|].
  destruct (store_get (sessions w) sessionId) as [s0|]; cbn [fst sessions];
    [eapply store_set_keeps; exact Hget | eauto].
Qed.

(** X10. No step removes a session: when a request arrives, a dispatch
    completes, [say] runs or the transport answers, every session id of
    the store is still one afterwards. *)
Theorem step_keeps_sessions (w w' : world) (k : string) (s : session) :
  step w w' ->
  store_get (sessions w) k = Some s ->
  exists s', store_get (sessions w') k = Some s'.
Proof.
  intros Hstep Hget.
  destruct Hstep as [w now body|w sender sessionId error context0
                     |w sessionId context0 message cb|w cb err resp data].
  - destruct (post_fb_sessions now body w) as [-> | [sender ->]];
      [eauto | apply (findOrCreateSession_keeps now sender w k s Hget)].
  - apply (runActions_callback_keeps sender sessionId error context0 w k s Hget).
  - rewrite say_sessions. eauto.
  - rewrite fbReq_callback_sessions. eauto.
Qed.

Lemma filter_dispatch_added (old added : list effect) :
  filter is_dispatch added = [] ->
  filter is_dispatch (old ++ added) = filter is_dispatch old.
Proof. intros H. rewrite filter_app, H. apply app_nil_r. Qed.

Lemma runActions_callback_dispatches (sender : value) (sessionId : string)
    (error context0 : value) (w : world) :
  filter is_dispatch
    (trace (fst (runActions_callback sender sessionId error context0 w)))
  = filter is_dispatch (trace w).
Proof.
  unfold runActions_callback, bind, console_log, fbMessage, emit, set_context.
  destruct (truthy error); cbn [fst trace sessions].
  - rewrite <- app_assoc. apply filter_dispatch_added. reflexivity.
  - destruct (store_get (sessions w) sessionId); cbn [fst trace];
      apply filter_dispatch_added; reflexivity.
Qed.

Lemma say_dispatches (sessionId : string) (context0 message : value)
    (cb : wit_continuation) (w : world) :
  filter is_dispatch (trace (fst (say sessionId context0 message cb w)))
  = filter is_dispatch (trace w).
Proof.
  unfold say, bind, session_field, fbMessage, console_log, call_continuation, emit.
  destruct (store_get (sessions w) sessionId) as [s|]; [|reflexivity].
  destruct (truthy (fbid s)); cbn [fst trace].
  - apply filter_dispatch_added. reflexivity.
  - rewrite <- app_assoc. apply filter_dispatch_added. reflexivity.
Qed.

Lemma fbReq_callback_dispatches (cb : option fb_callback) (err resp data : value)
    (w : world) :
  filter is_dispatch (trace (fst (fbReq_callback cb err resp data w)))
  = filter is_dispatch (trace w).
Proof.
  unfold fbReq_callback, bind, lift. destruct cb as [[recipientId k]|]; [|reflexivity].
  destruct (gateway_error err data) as [e|e]; [|reflexivity].
  unfold call_fb_callback, bind, console_log, call_continuation, emit, ret.
  destruct (truthy e); cbn [fst trace].
  - rewrite <- app_assoc. apply filter_dispatch_added. reflexivity.
  - apply filter_dispatch_added. reflexivity.
Qed.

Lemma in_dispatches (e : effect) (es : list effect) :
  is_dispatch e = true -> In e es <-> In e (filter is_dispatch es).
Proof.
  intros He. rewrite filter_In. split; [intros H; split; assumption | intros [H _]; exact H].
Qed.

(** Every dispatch on record is for a session of the store. *)
Lemma reachable_dispatch_session (w : world) :
  reachable w ->
  forall sessionId msg context0 sender,
    In (RunActions sessionId msg context0 sender) (trace w) ->
    exists s, store_get (sessions w) sessionId = Some s.
Proof.
  induction 1 as [|w now body Hreach IH|w sender0 sessionId0 error context1 Hreach IH
                  |w sessionId0 context1 message cb Hreach IH
                  |w cb err resp data Hreach IH];
    intros sessionId msg context0 sender Hin.
  - destruct Hin.
  - destruct (post_fb_cases now body w)
      as [[e Hrun] | [Hrun | (sender0 & sid & w1 & s & added & Hfind & Hget & _ &
                               Hrun & Hadded)]];
      rewrite Hrun in *; cbn [fst sessions trace] in *.
    + eauto.
    + apply in_app_or in Hin. destruct Hin as [Hin | [Habs | []]];
        [eauto | discriminate].
    + apply in_app_or in Hin. destruct Hin as [Hin | Hin].
      * destruct (IH _ _ _ _ Hin) as [s0 Hs0].
        pose proof (findOrCreateSession_keeps now sender0 w sessionId s0 Hs0) as Hk.
        rewrite Hfind in Hk. exact Hk.
      * destruct Hadded as [-> | [(msg0 & _ & ->) | ->]]; simpl in Hin.
        -- destruct Hin as [Habs | [Habs | []]]; discriminate.
        -- destruct Hin as [Habs | [Habs | [Heq | [Habs | []]]]]; try discriminate.
           injection Heq as <- _ _ _. eauto.
        -- destruct Hin as [Habs | []]; discriminate.
  - apply in_dispatches in Hin; [|reflexivity].
    rewrite runActions_callback_dispatches in Hin.
    apply in_dispatches in Hin; [|reflexivity].
    destruct (IH _ _ _ _ Hin) as [s Hs].
    exact (runActions_callback_keeps sender0 sessionId0 error context1 w
             sessionId s Hs).
  - apply in_dispatches in Hin; [|reflexivity].
    rewrite say_dispatches in Hin.
    apply in_dispatches in Hin; [|reflexivity].
    rewrite say_sessions. eauto.
  - apply in_dispatches in Hin; [|reflexivity].
    rewrite fbReq_callback_dispatches in Hin.
    apply in_dispatches in Hin; [|reflexivity].
    rewrite fbReq_callback_sessions. eauto.
Qed.


(** ** Batches *)

Lemma getFirstMessagingEntry_batch (obj id m : value) (ms es : list value) :
  getFirstMessagingEntry (batch obj id (m :: ms) es)
  = getFirstMessagingEntry (batch obj id [m] []).
Proof.
  unfold getFirstMessagingEntry, batch, js_loose_eq, js_isArray, js_gt, js_prop,
    js_index.
  simpl.
  destruct (loose_eq obj (VString "page")) as [[|]|e]; [|reflexivity|reflexivity].
  simpl.
  destruct (loose_eq id (VNumber FB_PAGE_ID)) as [[|]|e]; reflexivity.
Qed.

(** X6. Of a body with several entries, or several messaging items in its
    first entry, the handler sees the first messaging item of the first
    entry only: the others change nothing in what it does. *)
Theorem post_fb_first_of_batch (now : Z) (obj id m : value) (ms es : list value)
    (w : world) :
  post_fb now (batch obj id (m :: ms) es) w = post_fb now (batch obj id [m] []) w.
Proof.
  unfold post_fb. rewrite getFirstMessagingEntry_batch. reflexivity.
Qed.

(** ** Two turns of a conversation *)


(** ** What the router can throw *)

Lemma ToString_throws (v : value) (e : exn) :
  ToString v = Throw e -> e = cannot_convert.
Proof.
  revert v e. fix IH 1. intros v e. destruct v as [| |b|n|s0|r items|r props].
  - discriminate.
  - discriminate.
  - destruct b; discriminate.
  - discriminate.
  - discriminate.
  - simpl. induction items as [|x rest IHrest]; [discriminate|].
    destruct (is_nullish x); [|destruct (ToString x) as [sx|e'] eqn:Hx].
    + destruct rest as [|y rest']; [discriminate|].
      match goal with
      | |- (match ?J with Ok _ => _ | Throw _ => _ end) = _ -> _ =>
          destruct J as [srest|e']
      end; [discriminate|].
      intros H. injection H as <-. apply IHrest. reflexivity.
    + destruct rest as [|y rest']; [discriminate|].
      match goal with
      | |- (match ?J with Ok _ => _ | Throw _ => _ end) = _ -> _ =>
          destruct J as [srest|e']
      end; [discriminate|].
      intros H. injection H as <-. apply IHrest. reflexivity.
    + intros H. injection H as <-. apply (IH x). exact Hx.
  - simpl. destruct (has_own props "toString"); [|discriminate].
    intros H. injection H as <-. reflexivity.
Qed.

Lemma loose_eq_throws (x y : value) (e : exn) :
  loose_eq x y = Throw e -> e = cannot_convert.
Proof.
  assert (Hobj : forall a b, loose_eq_object a b = Throw e -> e = cannot_convert).
  { intros a b. unfold loose_eq_object, ToPrimitive.
    destruct a, b; cbn [is_object]; try discriminate;
      match goal with
      | |- (match (match ?T with Ok _ => _ | Throw _ => _ end) with _ => _ end) = _ -> _ =>
          destruct T as [s0|e'] eqn:HT; [discriminate|];
          intros H; injection H as <-; apply (ToString_throws _ _ HT)
      end. }
  unfold loose_eq. destruct x, y; try discriminate; apply Hobj.
Qed.

(** X8. On a body that is not [null] or [undefined] the router reads no
    property of [undefined] or [null]: it returns, unless a comparison
    with [==] meets an object that has no primitive value. *)
Theorem getFirstMessagingEntry_guarded (body : value) :
  is_nullish body = false ->
  (exists v, getFirstMessagingEntry body = Ok v) \/
  getFirstMessagingEntry body = Throw cannot_convert.
Proof.
  intros Hbody.
  destruct (get_prop_defined body "object" Hbody) as [obj Hobj].
  destruct (get_prop_defined body "entry" Hbody) as [entry Hentry].
  unfold getFirstMessagingEntry, js_loose_eq, js_isArray, js_gt, js_prop, js_index.
  rewrite Hobj, Hentry.
  destruct (loose_eq obj (VString "page")) as [[|]|e] eqn:Hpage;
    [| left; eexists; reflexivity
     | right; rewrite (loose_eq_throws _ _ _ Hpage); reflexivity].
  destruct entry as [| |[|]|n|s0|r1 items|r1 props];
    try (left; eexists; reflexivity).
  - unfold js_and, js_or. simpl.
    destruct (n =? 0) eqn:E; repeat (simpl; rewrite E); simpl;
      left; eexists; reflexivity.
  - unfold js_and, js_or. simpl.
    destruct (String.eqb s0 "") eqn:E; repeat (simpl; rewrite E); simpl;
      left; eexists; reflexivity.
  - destruct items as [|e0 es]; [left; eexists; reflexivity|].
    cbn [js_and js_or truthy isArray get_prop get_index nth String.eqb Ascii.eqb
         Bool.eqb gt].
    rewrite length_cons_pos. cbn [js_and truthy].
    destruct (truthy e0) eqn:He0;
      [|unfold js_and, js_or; repeat (cbn beta iota; rewrite He0);
        left; eexists; reflexivity].
    destruct (get_prop_defined e0 "id" (truthy_not_nullish _ He0)) as [id Hid].
    destruct (get_prop_defined e0 "messaging" (truthy_not_nullish _ He0))
      as [msgs Hmsgs].
    rewrite Hid, Hmsgs.
    destruct (loose_eq id (VNumber FB_PAGE_ID)) as [[|]|e] eqn:Hpid;
      [| left; eexists; reflexivity
       | right; rewrite (loose_eq_throws _ _ _ Hpid); reflexivity].
    destruct msgs as [| |[|]|n|s0|r2 ms|r2 props];
      try (left; eexists; reflexivity).
    + unfold js_and, js_or. simpl.
    destruct (n =? 0) eqn:E; repeat (simpl; rewrite E); simpl;
      left; eexists; reflexivity.
    + unfold js_and, js_or. simpl.
      destruct (String.eqb s0 "") eqn:E; repeat (simpl; rewrite E); simpl;
      left; eexists; reflexivity.
    + destruct ms as [|m ms']; [left; eexists; reflexivity|].
      cbn [js_and js_or truthy isArray get_prop get_index nth String.eqb Ascii.eqb
           Bool.eqb gt].
      rewrite length_cons_pos. cbn [js_and js_or truthy].
      destruct (truthy m) eqn:Hm; rewrite ?Hm; left; eexists; reflexivity.
Qed.

(** ** A new user *)

Lemma store_set_new (st : store) (k : string) (v : session) :
  ~ In k (keys st) -> store_set st k v = (st ++ [(k, v)])%list.
Proof.
  induction st as [|[k' v'] rest IH]; simpl; [reflexivity|].
  intros Hnot. destruct (String.eqb k' k) eqn:E.
  - apply String.eqb_eq in E. exfalso. apply Hnot. left. exact E.
  - rewrite IH by (intros H; apply Hnot; right; exact H). reflexivity.
Qed.

(** X9. For a user without session, at a clock reading that names no
    session yet, [findOrCreateSession] returns the time stamp and appends one
    record to the store: this user, with an empty context.  Every session
    that was there is still there, unchanged. *)
Theorem findOrCreateSession_new_user (w : world) (now : Z) (fbid0 : value) :
  (forall k s, store_get (sessions w) k = Some s ->
               strict_eq (fbid s) fbid0 = false) ->
  ~ In (toISOString now) (keys (sessions w)) ->
  exists w1,
    findOrCreateSession now fbid0 w = (w1, Ok (toISOString now)) /\
    sessions w1 =
      (sessions w ++
       [(toISOString now,
         {| fbid := fbid0; context := VObject (next_ref w) [] |})])%list /\
    trace w1 = trace w /\
    forall k s, store_get (sessions w) k = Some s ->
                store_get (sessions w1) k = Some s.
Proof.
  intros Hnone Hnew. apply forEach_key_absent in Hnone.
  eexists. split; [apply findOrCreateSession_created; exact Hnone|].
  cbn [sessions trace]. split; [apply store_set_new; exact Hnew|].
  split; [reflexivity|].
  intros k s Hget. rewrite store_get_set_other; [exact Hget|].
  intros ->. apply Hnew. eapply store_get_in_keys. exact Hget.
Qed.

(** ** [say] and the gateway together *)

(** X12. [say] on a session with a recipient id, then the reply of the
    transport: one request goes to the user of the session with the
    message as it was given; the error the gateway makes of the reply is
    logged when it is truthy, and only then; [cb] is called last, with no
    argument. *)
Theorem say_sends_and_logs (sessionId : string) (context0 message : value)
    (cb : wit_continuation) (err resp data : value) (w : world) (s : session) :
  store_get (sessions w) sessionId = Some s ->
  truthy (fbid s) = true ->
  truthy err = true \/ is_nullish data = false ->
  exists e,
    gateway_error err data = Ok e /\
    say_then_reply sessionId context0 message cb err resp data w =
      ({| sessions := sessions w; next_ref := next_ref w;
          trace := trace w ++
                   FbReq (fbid s) message (Some (SayCallback (fbid s) cb)) ::
                   (if truthy e then
                      [ConsoleLog
                         [VString "Oops! An error occurred while forwarding the response to";
                          fbid s; VString ":"; e]]
                    else []) ++
                   [CallContinuation cb []] |}, Ok tt) /\
    (truthy e = true <->
     truthy err = true \/
     exists er m, get_prop data "error" = Ok er /\ truthy er = true /\
                  get_prop er "message" = Ok m /\ truthy m = true).
Proof.
  intros Hs Hto Hreply.
  destruct (gateway_error_truthy err data Hreply) as (e & He & Hiff).
  exists e. split; [exact He|]. split; [|exact Hiff].
  unfold say_then_reply, say, bind, session_field. rewrite Hs, Hto.
  unfold fbMessage, emit. cbn [trace]. rewrite skipn_length_app.
  cbn [deliver_each deliver]. unfold bind, fbReq_callback, bind, lift. rewrite He.
  unfold call_fb_callback, bind, console_log, call_continuation, emit, ret.
  destruct (truthy e); cbn [sessions next_ref trace];
    rewrite <- ?app_assoc; reflexivity.
Qed.

(** ** The actions during a dispatch *)


(** X14. [say] and [set_reminder] on a session id that is not in the store
    and names no member of [Object.prototype] throw at
    [sessions[sessionId].fbid]: nothing is sent or logged and [cb] is not
    called. *)
Theorem actions_without_session (w : world) (sessionId : string)
    (context0 message : value) (cb : wit_continuation) :
  store_get (sessions w) sessionId = None ->
  object_prototype_member sessionId = false ->
  say sessionId context0 message cb w =
    (w, Throw (TypeError "Cannot read property 'fbid' of undefined")) /\
  set_reminder sessionId context0 cb w =
    (w, Throw (TypeError "Cannot read property 'fbid' of undefined")).
Proof.
  intros Hnone _. unfold say, set_reminder, bind, session_field. rewrite Hnone.
  split; reflexivity.
Qed.

(** ** firstEntityValue *)

Lemma own_member_array (entities : value) (entity : string) (r : nat)
    (items : list value) :
  own_member entities entity = Some (VArray r items) ->
  truthy entities = true /\
  get_member entities entity = Ok (VArray r items).
Proof.
  destruct entities as [| |b|n|s0|r0 items0|r0 props]; simpl; try discriminate.
  - destruct (String.eqb entity "length"); [discriminate|].
    destruct (index_member entity 0 (list_ascii_of_string s0)); discriminate.
  - intros H. rewrite H. auto.
  - intros H. rewrite H. auto.
Qed.

(** X15. Whatever [entities] is, [null] and [undefined] included, and whatever
    [entity] names in it, short of a non-empty array, [firstEntityValue]
    returns [null]: it does not throw. *)
Theorem firstEntityValue_absent (entities : value) (entity : string) :
  (forall r x rest, own_member entities entity <> Some (VArray r (x :: rest))) ->
  firstEntityValue entities entity = Ok VNull.
Proof.
  intros Hnot. unfold firstEntityValue, js_member, js_isArray, js_gt, js_prop,
    js_index, js_and.
  destruct (truthy entities) eqn:Hte;
    [|repeat (cbn beta iota; rewrite Hte); reflexivity].
  assert (Hmember : exists m, get_member entities entity = Ok m /\
                              forall r x rest, m <> VArray r (x :: rest)).
  { unfold get_member.
    destruct entities as [| |b|n|s0|r0 items0|r0 props]; try discriminate;
      (eexists; split; [reflexivity|]); intros r x rest;
      destruct (own_member _ entity) as [m|] eqn:Hm;
      try discriminate; intros ->; exact (Hnot r x rest eq_refl). }
  destruct Hmember as (m & -> & Hm).
  destruct m as [| |[|]|n|s0|r items|r props]; try reflexivity.
  - simpl. destruct (n =? 0) eqn:E; repeat (simpl; rewrite E); reflexivity.
  - simpl. destruct (String.eqb s0 "") eqn:E; repeat (simpl; rewrite E); reflexivity.
  - destruct items as [|x rest]; [reflexivity|]. destruct (Hm r x rest eq_refl).
Qed.

(** X16. When [entity] names a non-empty array whose first element is not
    [null], the result is read off the [value] of that first element and
    of nothing else: [null] when it is falsy, itself when it is a truthy
    string, number or boolean, and its own [value] when it is an object.
    The other elements play no part. *)
Theorem firstEntityValue_first (entities : value) (entity : string) (r : nat)
    (x v : value) (rest : list value) :
  own_member entities entity = Some (VArray r (x :: rest)) ->
  get_prop x "value" = Ok v ->
  firstEntityValue entities entity =
    if negb (truthy v) then Ok VNull
    else if typeof_object v then get_prop v "value"
    else Ok v.
Proof.
  intros Hown Hv. destruct (own_member_array _ _ _ _ Hown) as [Hte Hmember].
  unfold firstEntityValue, js_member, js_isArray, js_gt, js_prop, js_index, js_and.
  rewrite Hmember, Hte.
  cbn [truthy isArray get_prop get_index nth String.eqb Ascii.eqb Bool.eqb gt].
  rewrite length_cons_pos. cbn [truthy]. rewrite Hv. reflexivity.
Qed.

(** X17. When the first element of the array is [null], [firstEntityValue]
    throws at [entities[entity][0].value]. *)
Theorem firstEntityValue_null_element (entities : value) (entity : string)
    (r : nat) (rest : list value) :
  own_member entities entity = Some (VArray r (VNull :: rest)) ->
  firstEntityValue entities entity =
    Throw (TypeError "Cannot read property 'value' of null").
Proof.
  intros Hown. destruct (own_member_array _ _ _ _ Hown) as [Hte Hmember].
  unfold firstEntityValue, js_member, js_isArray, js_gt, js_prop, js_index, js_and.
  rewrite Hmember, Hte.
  cbn [truthy isArray get_prop get_index nth String.eqb Ascii.eqb Bool.eqb gt].
  rewrite length_cons_pos. reflexivity.
Qed.

(** ** The verification handshake *)

Lemma strict_eq_string (x : value) (s0 : string) :
  strict_eq x (VString s0) = true <-> x = VString s0.
Proof.
  split.
  - destruct x; simpl; try discriminate. intros H.
    apply String.eqb_eq in H. congruence.
  - intros ->. apply strict_eq_refl.
Qed.

(** X18. The handshake echoes the challenge exactly when a verify token is
    configured and not empty, [hub.mode] is the string ['subscribe'] and
    [hub.verify_token] is the configured token, and the echo is the
    [hub.challenge] of the request.  It throws exactly when no token is
    configured, before it looks at the request, so that a request without
    [hub.verify_token] is never verified.  Otherwise it answers 400. *)
Theorem get_fb_verifies (FB_VERIFY_TOKEN : option string)
    (query : list (string * value)) :
  (forall challenge,
      get_fb FB_VERIFY_TOKEN query = Responds (Send challenge) <->
      exists token,
        FB_VERIFY_TOKEN = Some token /\ token <> "" /\
        query_param query "hub.mode" = VString "subscribe" /\
        query_param query "hub.verify_token" = VString token /\
        challenge = query_param query "hub.challenge") /\
  (get_fb FB_VERIFY_TOKEN query = MissingVerifyToken <->
   FB_VERIFY_TOKEN = None \/ FB_VERIFY_TOKEN = Some "") /\
  (forall r, get_fb FB_VERIFY_TOKEN query = Responds r ->
             r = Send (query_param query "hub.challenge") \/
             r = SendStatusCode 400).
Proof.
  unfold get_fb. destruct FB_VERIFY_TOKEN as [token|].
  - destruct (String.eqb token "") eqn:Etok.
    + apply String.eqb_eq in Etok. subst token. split; [|split].
      * intros challenge. split; [discriminate|].
        intros (token & Heq & Hne & _). injection Heq as <-. congruence.
      * split; auto.
      * discriminate.
    + apply String.eqb_neq in Etok.
      destruct (strict_eq (query_param query "hub.mode") (VString "subscribe"))
        eqn:Hmode;
        [destruct (strict_eq (query_param query "hub.verify_token") (VString token))
           eqn:Htoken|]; cbn [andb]; (split; [|split]).
      * intros challenge. split.
        -- intros H. injection H as <-. exists token.
           apply strict_eq_string in Hmode. apply strict_eq_string in Htoken. auto.
        -- intros (token' & Heq & _ & _ & _ & ->). reflexivity.
      * split; [discriminate | intros [H | H]; [discriminate | congruence]].
      * intros r H. injection H as <-. auto.
      * intros challenge. split; [discriminate|].
        intros (token' & Heq & _ & _ & Htok & _). injection Heq as <-.
        apply strict_eq_string in Htok. congruence.
      * split; [discriminate | intros [H | H]; [discriminate | congruence]].
      * intros r H. injection H as <-. auto.
      * intros challenge. split; [discriminate|].
        intros (token' & _ & _ & Hm & _). apply strict_eq_string in Hm. congruence.
      * split; [discriminate | intros [H | H]; [discriminate | congruence]].
      * intros r H. injection H as <-. auto.
  - split; [|split].
    + intros challenge. split; [discriminate|].
      intros (token & Heq & _). discriminate.
    + split; auto.
    + discriminate.
Qed.

(** ** Events that are not for the bot *)

(** X2. Three kinds of request are only acknowledged: the handler answers
    200, creates no session, sends nothing and starts no dispatch.  They
    are the bodies the router does not match, the events that have
    neither a message nor a postback, and the events whose recipient id
    is not the page id. *)
Theorem post_fb_unaccepted (now : Z) (body messaging : value) (w : world) :
  getFirstMessagingEntry body = Ok messaging ->
  messaging = VNull \/
  (exists message postback,
      get_prop messaging "message" = Ok message /\ truthy message = false /\
      get_prop messaging "postback" = Ok postback /\ truthy postback = false) \/
  (exists recipient id,
      get_prop messaging "recipient" = Ok recipient /\
      get_prop recipient "id" = Ok id /\
      strict_eq id (VNumber FB_PAGE_ID) = false) ->
  post_fb now body w =
    ({| sessions := sessions w; next_ref := next_ref w;
        trace := trace w ++ [SendStatus 200] |}, Ok tt).
Proof.
  intros Hm Hcase.
  destruct (truthy messaging) eqn:Htm.
  - destruct (get_prop_defined messaging "message" (truthy_not_nullish _ Htm))
      as [message Hmsg].
    destruct (get_prop_defined messaging "postback" (truthy_not_nullish _ Htm))
      as [postback Hp].
    assert (Hacc : exists accepted,
               accepts messaging = Ok accepted /\ truthy accepted = false).
    { unfold accepts, js_and, js_or, js_strict_eq, js_prop.
      rewrite Htm, Hmsg. cbn iota. rewrite Hp.
      destruct Hcase as [-> | [(m & pb & Hm' & Htm' & Hp' & Htp') |
                                (recipient & id & Hr & Hid & Hne)]].
      - discriminate.
      - rewrite Hmsg in Hm'. injection Hm' as <-. rewrite Hp in Hp'.
        injection Hp' as <-. rewrite Htm'. cbn iota. rewrite Htp'.
        exists postback. split; [reflexivity | exact Htp'].
      - rewrite Hr, Hid, Hne.
        destruct (truthy message) eqn:E1; cbn iota; rewrite ?E1;
          [exists (VBool false); split; reflexivity|].
        destruct (truthy postback) eqn:E2;
          [exists (VBool false); split; reflexivity
          |exists postback; split; [reflexivity | exact E2]]. }
    destruct Hacc as (accepted & Hacc & Hfalse).
    exact (post_fb_ignored now body messaging accepted w Hm Hacc Hfalse).
  - apply (post_fb_ignored now body messaging messaging w Hm); [|exact Htm].
    unfold accepts, js_and. rewrite Htm. cbn iota. rewrite Htm. reflexivity.
Qed.

(** ** Replies to what the handler sends *)

(** X19. What the handler and the completion callback send through the
    gateway, they send without callback: whatever the transport answers
    to it, with or without error or body, nothing happens. *)
Theorem handler_sends_ignore_replies (e : effect) (err resp data : value)
    (w w' : world) :
  (exists now body,
      In e (skipn (List.length (trace w)) (trace (fst (post_fb now body w))))) \/
  (exists sender sessionId error context0,
      In e (skipn (List.length (trace w))
              (trace (fst (runActions_callback sender sessionId error context0 w))))) ->
  deliver e err resp data w' = (w', Ok tt).
Proof.
  intros [(now & body & Hin) | (sender & sessionId & error & context0 & Hin)].
  - destruct (post_fb_cases now body w)
      as [[e0 Hrun] | [Hrun | (sender & sid & w1 & s & added & _ & _ & _ &
                                Hrun & Hadded)]];
      rewrite Hrun in Hin; cbn [fst trace] in Hin.
    + rewrite skipn_all in Hin. destruct Hin.
    + rewrite skipn_length_app in Hin. destruct Hin as [<- | []]. reflexivity.
    + rewrite skipn_length_app in Hin.
      destruct Hadded as [-> | [(msg & _ & ->) | ->]]; simpl in Hin;
        repeat (destruct Hin as [<- | Hin]; [reflexivity|]); destruct Hin.
  - revert Hin.
    unfold runActions_callback, bind, console_log, fbMessage, emit, set_context.
    destruct (truthy error); cbn [fst trace sessions].
    + rewrite <- app_assoc, skipn_length_app. simpl.
      intros Hin. repeat (destruct Hin as [<- | Hin]; [reflexivity|]). destruct Hin.
    + destruct (store_get (sessions w) sessionId); cbn [fst trace];
        rewrite skipn_length_app; simpl;
        intros Hin; repeat (destruct Hin as [<- | Hin]; [reflexivity|]); destruct Hin.
Qed.

End Messenger.

(** * Concrete runs *)

(** ** findOrCreateSession *)


(** ** The completion callback *)

(** [runActions] fails on an action that is not registered. *)
Lemma runActions_callback_error_witness :
  truthy (VString "No 'nonexistent_action' action found.") = true /\
  exists w',
    runActions_callback (VString "u1") u1_session
      (VString "No 'nonexistent_action' action found.") VUndefined world_with_u1
      = (w', Ok tt) /\
    sessions w' = sessions world_with_u1.
Proof.
  split; [reflexivity|].
  destruct (runActions_callback_error (VString "u1") u1_session
              (VString "No 'nonexistent_action' action found.") VUndefined
              world_with_u1 eq_refl)
    as (w' & Hrun & Hstore & _).
  exists w'. split; [exact Hrun | exact Hstore].
Defined.

Lemma runActions_callback_roundtrip_witness :
  store_get (sessions world_with_u1) u1_session
    = Some {| fbid := VString "u1";
              context := VObject 0 [("intent", VString "schedule")] |} /\
  truthy VNull = false /\
  exists w',
    runActions_callback (VString "u1") u1_session VNull (VObject 7 []) world_with_u1
      = (w', Ok tt) /\
    session_field u1_session "context" context w' = (w', Ok (VObject 7 [])).
Proof.
  split; [reflexivity|]. split; [reflexivity|].
  exact (runActions_callback_roundtrip (VString "u1") u1_session VNull (VObject 7 [])
           world_with_u1 _ eq_refl eq_refl).
Defined.

Lemma runActions_callback_overwrites_witness :
  store_get (sessions world_with_u1) u1_session
    = Some {| fbid := VString "u1";
              context := VObject 0 [("intent", VString "schedule")] |} /\
  truthy VNull = false /\
  exists w',
    runActions_callback (VString "u1") u1_session VNull
      (VObject 7 [("done", VBool true)]) world_with_u1 = (w', Ok tt) /\
    store_get (sessions w') u1_session
      = Some {| fbid := VString "u1";
                context := VObject 7 [("done", VBool true)] |}.
Proof.
  split; [reflexivity|]. split; [reflexivity|].
  destruct (runActions_callback_overwrites (VString "u1") u1_session VNull
              (VObject 7 [("done", VBool true)]) world_with_u1 _ eq_refl eq_refl)
    as (w' & Hrun & Hget & _).
  exists w'. split; [exact Hrun | exact Hget].
Defined.

(** ** The gateway and [say] *)

Lemma fbReq_callback_error_witness :
  (truthy VNull = true \/ is_nullish error_with_message = false) /\
  exists e,
    fbReq_callback (Some (SayCallback (VString "u1") (WitContinuation 0)))
      VNull VUndefined error_with_message initial_world
    = call_fb_callback (SayCallback (VString "u1") (WitContinuation 0))
        e error_with_message initial_world /\
    truthy e = true.
Proof.
  split; [right; reflexivity|].
  destruct (fbReq_callback_error (SayCallback (VString "u1") (WitContinuation 0))
              VNull VUndefined error_with_message initial_world
              (or_intror eq_refl))
    as (e & Hrun & Hiff).
  exists e. split; [exact Hrun|].
  apply Hiff. right.
  exists (VObject 1 [("message", VString "Invalid OAuth access token.");
                     ("code", VNumber 190)]),
    (VString "Invalid OAuth access token.").
  repeat split; reflexivity.
Defined.

(** C6, as stated, fails on a response whose [error] has no [message]:
    the body embeds an error field, and the callback is run with
    [undefined] for error. *)
Lemma fbReq_callback_error_without_message :
  embeds_error_field error_without_message = true /\
  fbReq_callback (Some (SayCallback (VString "u1") (WitContinuation 0)))
    VNull VUndefined error_without_message initial_world
  = call_fb_callback (SayCallback (VString "u1") (WitContinuation 0))
      VUndefined error_without_message initial_world /\
  is_nullish VUndefined = true /\
  truthy VUndefined = false.
Proof. repeat split; reflexivity. Qed.

Lemma say_calls_cb_once_witness :
  store_get (sessions world_with_u1) u1_session
    = Some {| fbid := VString "u1";
              context := VObject 0 [("intent", VString "schedule")] |} /\
  (truthy (VString "u1") = false \/
   truthy VNull = true \/ is_nullish error_with_message = false) /\
  exists w' added,
    say_then_reply u1_session (VObject 0 []) (VString "Tonight at 7:30PM")
      (WitContinuation 0) VNull VUndefined error_with_message world_with_u1
      = (w', Ok tt) /\
    trace w' = (trace world_with_u1 ++ added)%list /\
    continuation_calls (WitContinuation 0) added = 1%nat.
Proof.
  split; [reflexivity|]. split; [right; right; reflexivity|].
  destruct (say_calls_cb_once u1_session (VObject 0 []) (VString "Tonight at 7:30PM")
              (WitContinuation 0) VNull VUndefined error_with_message
              world_with_u1 _ eq_refl (or_intror (or_intror eq_refl)))
    as (w' & added & Hrun & Htrace & Hcount & _).
  exists w', added. split; [exact Hrun|]. split; [exact Htrace | exact Hcount].
Defined.

(** An empty reply to the request of [say]: no error and no body. *)
Lemma say_reply_without_body_throws_witness :
  store_get (sessions world_with_u1) u1_session
    = Some {| fbid := VString "u1";
              context := VObject 0 [("intent", VString "schedule")] |} /\
  truthy (VString "u1") = true /\
  truthy VNull = false /\
  is_nullish VUndefined = true /\
  exists w',
    say_then_reply u1_session (VObject 0 []) (VString "Tonight at 7:30PM")
      (WitContinuation 0) VNull VUndefined VUndefined world_with_u1
    = (w', Throw (TypeError "Cannot read property 'error' of undefined")) /\
    trace w' =
      [FbReq (VString "u1") (VString "Tonight at 7:30PM")
         (Some (SayCallback (VString "u1") (WitContinuation 0)))] /\
    continuation_calls (WitContinuation 0) (trace w') = 0%nat.
Proof.
  repeat (split; [reflexivity|]).
  destruct (say_reply_without_body_throws u1_session (VObject 0 [])
              (VString "Tonight at 7:30PM") (WitContinuation 0)
              VNull VUndefined VUndefined world_with_u1
              {| fbid := VString "u1";
                 context := VObject 0 [("intent", VString "schedule")] |}
              eq_refl eq_refl eq_refl eq_refl)
    as (w' & e & Hrun & He & _ & Htrace & Hcount).
  injection He as <-.
  exists w'. split; [exact Hrun|]. split; [exact Htrace | exact Hcount].
Defined.

(** The same run, evaluated: the function of lines 258-262 throws at
    [data.error], and [cb] is never called. *)
Lemma say_reply_without_body :
  exists w',
    say_then_reply u1_session (VObject 0 []) (VString "Tonight at 7:30PM")
      (WitContinuation 0) VNull VUndefined VUndefined world_with_u1
    = (w', Throw (TypeError "Cannot read property 'error' of undefined")) /\
    continuation_calls (WitContinuation 0) (trace w') = 0%nat.
Proof. eexists. split; reflexivity. Qed.

(** ** The router and the handler *)

(** C5, as stated, fails on a first messaging entry that is falsy: the
    body meets every condition of the claim, and the router returns
    [null], not the entry. *)
Lemma getFirstMessagingEntry_falsy_entry :
  page_event example_page_id decimal_literal
    (page_entries example_page_id [VNumber 0]) (VNumber 0) /\
  getFirstMessagingEntry example_page_id decimal_literal
    (page_entries example_page_id [VNumber 0]) = Ok VNull /\
  getFirstMessagingEntry example_page_id decimal_literal
    (page_entries example_page_id [VNumber 0]) <> Ok (VNumber 0).
Proof.
  split; [|split; [reflexivity | discriminate]].
  exists (VString "page"), 1%nat,
    (VObject 2 [("id", VNumber example_page_id);
                ("messaging", VArray 3 [VNumber 0])]),
    [], (VNumber example_page_id), 3%nat, [].
  repeat split; reflexivity.
Qed.

(** A text message of user ["u1"] is routed to its messaging entry. *)
Lemma getFirstMessagingEntry_routes_witness :
  page_event example_page_id decimal_literal
    (text_message example_page_id "u1" "hi")
    (VObject 4
       [("sender", VObject 5 [("id", VString "u1")]);
        ("recipient", VObject 6 [("id", VNumber example_page_id)]);
        ("message", VObject 7 [("text", VString "hi")])]) /\
  getFirstMessagingEntry example_page_id decimal_literal
    (text_message example_page_id "u1" "hi")
  = Ok (VObject 4
          [("sender", VObject 5 [("id", VString "u1")]);
           ("recipient", VObject 6 [("id", VNumber example_page_id)]);
           ("message", VObject 7 [("text", VString "hi")])]).
Proof.
  assert (Hevent : page_event example_page_id decimal_literal
            (text_message example_page_id "u1" "hi")
            (VObject 4
               [("sender", VObject 5 [("id", VString "u1")]);
                ("recipient", VObject 6 [("id", VNumber example_page_id)]);
                ("message", VObject 7 [("text", VString "hi")])])).
  { exists (VString "page"), 1%nat,
      (VObject 2 [("id", VNumber example_page_id);
                  ("messaging",
                   VArray 3
                     [VObject 4
                        [("sender", VObject 5 [("id", VString "u1")]);
                         ("recipient", VObject 6 [("id", VNumber example_page_id)]);
                         ("message", VObject 7 [("text", VString "hi")])]])]),
      [], (VNumber example_page_id), 3%nat, [].
    repeat split; reflexivity. }
  split; [exact Hevent|].
  exact (proj1 (getFirstMessagingEntry_routes example_page_id decimal_literal
                  (text_message example_page_id "u1" "hi")) _ Hevent).
Defined.


(** The event of the platform, whose entry carries the page id as a
    string, is routed to its messaging entry. *)
Example getFirstMessagingEntry_string_id :
  getFirstMessagingEntry example_page_id decimal_literal
    (VObject 0
       [("object", VString "page");
        ("entry",
         VArray 1
           [VObject 2
              [("id", VString "1234567890");
               ("time", VNumber 1461974400000);
               ("messaging", VArray 3 [VObject 4 [("timestamp", VNumber 1461974400000)]])]])])
  = Ok (VObject 4 [("timestamp", VNumber 1461974400000)]).
Proof. reflexivity. Qed.

(** A first text message of user ["u1"], when the clock reads 0. *)
Example post_fb_text_message :
  post_fb example_page_id decimal_literal 0
    (text_message example_page_id "u1" "schedule tonight") initial_world
  = ({| sessions := [("1970-01-01T00:00:00.000Z",
                      {| fbid := VString "u1"; context := VObject 0 [] |})];
        next_ref := 1;
        trace := [ConsoleLog [VString "message: "];
                  ConsoleLog [VString "schedule tonight"];
                  RunActions "1970-01-01T00:00:00.000Z" (VString "schedule tonight")
                    (VObject 0 []) (VString "u1");
                  SendStatus 200] |}, Ok tt).
Proof. reflexivity. Qed.

(** A messaging entry with a [recipient] that has no [id] is only
    acknowledged. *)
Example post_fb_recipient_without_id :
  post_fb example_page_id decimal_literal 0
    (page_body example_page_id
       [("sender", VObject 5 [("id", VString "u1")]);
        ("recipient", VObject 6 []);
        ("message", VObject 7 [("text", VString "hi")])])
    initial_world
  = ({| sessions := []; next_ref := 0; trace := [SendStatus 200] |}, Ok tt).
Proof. reflexivity. Qed.

(** A body whose [object] cannot be made primitive makes the router, and
    the handler with it, throw. *)
Example post_fb_object_without_primitive :
  post_fb example_page_id decimal_literal 0
    (VObject 0 [("object", VObject 1 [("toString", VNull)])]) initial_world
  = (initial_world, Throw cannot_convert).
Proof. reflexivity. Qed.

(** [say] on a session without recipient id calls [cb] at once, whatever
    the transport would answer. *)
Example say_without_recipient :
  say_then_reply u1_session (VObject 0 []) (VString "Tonight at 7:30PM")
    (WitContinuation 0) VNull VUndefined VUndefined world_without_recipient
  = ({| sessions := sessions world_without_recipient;
        next_ref := 1;
        trace := [ConsoleLog [VString "Oops! Couldn't find user for session:";
                              VString u1_session];
                  CallContinuation (WitContinuation 0) []] |}, Ok tt).
Proof. reflexivity. Qed.

(** ** More runs of the handler *)

Lemma text_message_event (sender text : string) :
  text <> "" ->
  text_event example_page_id decimal_literal
    (text_message example_page_id sender text) (VString sender) (VString text).
Proof.
  intros Htext. unfold text_event. do 6 eexists.
  repeat (split; [reflexivity|]).
  split; [simpl; rewrite (proj2 (String.eqb_neq text "") Htext); reflexivity|].
  split; reflexivity.
Defined.

Lemma hi_not_empty : "hi" <> "".
Proof. discriminate. Defined.


Lemma postback_example_event :
  postback_event example_page_id decimal_literal
    (page_body example_page_id
       [("sender", VObject 5 [("id", VString "u1")]);
        ("recipient", VObject 6 [("id", VNumber example_page_id)]);
        ("postback",
         VObject 7 [("payload", VString "Set reminder for Breaking Bad")])])
    (VString "u1") (VString "Set reminder for Breaking Bad").
Proof.
  unfold postback_event. do 5 eexists.
  repeat (split; [reflexivity|]). left. reflexivity.
Defined.


Lemma blank_example_event :
  blank_event example_page_id decimal_literal
    (page_body example_page_id
       [("sender", VObject 5 [("id", VString "u1")]);
        ("recipient", VObject 6 [("id", VNumber example_page_id)]);
        ("message", VObject 7 [("mid", VString "mid.1")])])
    (VString "u1").
Proof.
  unfold blank_event. do 7 eexists.
  repeat (split; [reflexivity|]). reflexivity.
Defined.


(** A delivery receipt: an event with neither message nor postback. *)
Lemma post_fb_unaccepted_witness :
  getFirstMessagingEntry example_page_id decimal_literal
    (page_body example_page_id
       [("sender", VObject 5 [("id", VString "u1")]);
        ("recipient", VObject 6 [("id", VNumber example_page_id)]);
        ("delivery", VObject 7 [("watermark", VNumber 1461974400000)])])
  = Ok (VObject 4
          [("sender", VObject 5 [("id", VString "u1")]);
           ("recipient", VObject 6 [("id", VNumber example_page_id)]);
           ("delivery", VObject 7 [("watermark", VNumber 1461974400000)])]) /\
  post_fb example_page_id decimal_literal 0
    (page_body example_page_id
       [("sender", VObject 5 [("id", VString "u1")]);
        ("recipient", VObject 6 [("id", VNumber example_page_id)]);
        ("delivery", VObject 7 [("watermark", VNumber 1461974400000)])])
    initial_world
  = ({| sessions := []; next_ref := 0; trace := [SendStatus 200] |}, Ok tt).
Proof.
  split; [reflexivity|].
  apply (post_fb_unaccepted example_page_id decimal_literal 0
           (page_body example_page_id
              [("sender", VObject 5 [("id", VString "u1")]);
               ("recipient", VObject 6 [("id", VNumber example_page_id)]);
               ("delivery", VObject 7 [("watermark", VNumber 1461974400000)])])
           (VObject 4
              [("sender", VObject 5 [("id", VString "u1")]);
               ("recipient", VObject 6 [("id", VNumber example_page_id)]);
               ("delivery", VObject 7 [("watermark", VNumber 1461974400000)])])
           initial_world eq_refl).
  right. left. exists VUndefined, VUndefined. repeat split; reflexivity.
Defined.

Lemma getFirstMessagingEntry_guarded_witness :
  is_nullish (VArray 0 [VNumber 1]) = false /\
  ((exists v, getFirstMessagingEntry example_page_id decimal_literal
                (VArray 0 [VNumber 1]) = Ok v) \/
   getFirstMessagingEntry example_page_id decimal_literal (VArray 0 [VNumber 1])
   = Throw cannot_convert).
Proof.
  split; [reflexivity|].
  exact (getFirstMessagingEntry_guarded example_page_id decimal_literal
           (VArray 0 [VNumber 1]) eq_refl).
Defined.

(** ** Sessions over time *)

(** The world after a first text message of user ["u1"]. *)
Lemma dispatch_started :
  reachable example_page_id decimal_literal
    (fst (post_fb example_page_id decimal_literal 0
            (text_message example_page_id "u1" "hi") initial_world)) /\
  In (RunActions "1970-01-01T00:00:00.000Z" (VString "hi") (VObject 0 [])
        (VString "u1"))
     (trace (fst (post_fb example_page_id decimal_literal 0
                    (text_message example_page_id "u1" "hi") initial_world))).
Proof.
  split; [apply reachable_post; apply reachable_start|].
  right. right. left. reflexivity.
Defined.

Lemma step_keeps_sessions_witness :
  step example_page_id decimal_literal world_with_u1
    (fst (post_fb example_page_id decimal_literal 0
            (text_message example_page_id "u2" "hi") world_with_u1)) /\
  store_get (sessions world_with_u1) u1_session
    = Some {| fbid := VString "u1";
              context := VObject 0 [("intent", VString "schedule")] |} /\
  exists s',
    store_get
      (sessions (fst (post_fb example_page_id decimal_literal 0
                        (text_message example_page_id "u2" "hi") world_with_u1)))
      u1_session = Some s'.
Proof.
  split; [apply step_post|]. split; [reflexivity|].
  exact (step_keeps_sessions example_page_id decimal_literal _ _ u1_session _
           (step_post _ _ world_with_u1 0 (text_message example_page_id "u2" "hi"))
           eq_refl).
Defined.


Lemma bye_not_empty : "bye" <> "".
Proof. discriminate. Defined.


Lemma findOrCreateSession_new_user_witness :
  (forall k s, store_get (sessions world_with_u1) k = Some s ->
               strict_eq (fbid s) (VString "u2") = false) /\
  ~ In (toISOString 0) (keys (sessions world_with_u1)) /\
  exists w1,
    findOrCreateSession 0 (VString "u2") world_with_u1 = (w1, Ok (toISOString 0)) /\
    sessions w1 =
      (sessions world_with_u1 ++
       [(toISOString 0, {| fbid := VString "u2"; context := VObject 1 [] |})])%list.
Proof.
  assert (Hnone : forall k s, store_get (sessions world_with_u1) k = Some s ->
                              strict_eq (fbid s) (VString "u2") = false).
  { intros k s. unfold world_with_u1, store_get. cbn [sessions assoc].
    destruct (String.eqb u1_session k); [|discriminate].
    intros H. injection H as <-. reflexivity. }
  assert (Hnew : ~ In (toISOString 0) (keys (sessions world_with_u1))).
  { intros H. vm_compute in H. destruct H as [H | []]. discriminate H. }
  split; [exact Hnone|]. split; [exact Hnew|].
  destruct (findOrCreateSession_new_user world_with_u1 0 (VString "u2") Hnone Hnew)
    as (w1 & Hrun & Hstore & _).
  exists w1. split; [exact Hrun | exact Hstore].
Defined.

(** ** The actions *)

Lemma say_sends_and_logs_witness :
  store_get (sessions world_with_u1) u1_session
    = Some {| fbid := VString "u1";
              context := VObject 0 [("intent", VString "schedule")] |} /\
  truthy (VString "u1") = true /\
  (truthy VNull = true \/ is_nullish error_with_message = false) /\
  say_then_reply u1_session (VObject 0 []) (VString "Tonight at 7:30PM")
    (WitContinuation 0) VNull VUndefined error_with_message world_with_u1
  = ({| sessions := sessions world_with_u1; next_ref := 1;
        trace := [FbReq (VString "u1") (VString "Tonight at 7:30PM")
                    (Some (SayCallback (VString "u1") (WitContinuation 0)));
                  ConsoleLog
                    [VString "Oops! An error occurred while forwarding the response to";
                     VString "u1"; VString ":";
                     VString "Invalid OAuth access token."];
                  CallContinuation (WitContinuation 0) []] |}, Ok tt).
Proof.
  split; [reflexivity|]. split; [reflexivity|]. split; [right; reflexivity|].
  destruct (say_sends_and_logs u1_session (VObject 0 []) (VString "Tonight at 7:30PM")
              (WitContinuation 0) VNull VUndefined error_with_message
              world_with_u1 _ eq_refl eq_refl (or_intror eq_refl))
    as (e & He & Hrun & _).
  injection He as <-. exact Hrun.
Defined.


Lemma actions_without_session_witness :
  store_get (sessions initial_world) u1_session = None /\
  object_prototype_member u1_session = false /\
  say u1_session (VObject 0 []) (VString "Tonight at 7:30PM") (WitContinuation 0)
    initial_world
  = (initial_world, Throw (TypeError "Cannot read property 'fbid' of undefined")).
Proof.
  split; [reflexivity|]. split; [reflexivity|].
  exact (proj1 (actions_without_session initial_world u1_session (VObject 0 [])
                  (VString "Tonight at 7:30PM") (WitContinuation 0)
                  eq_refl eq_refl)).
Defined.

(** ** firstEntityValue *)

Lemma firstEntityValue_absent_witness :
  (forall r x rest,
      own_member (VObject 0 [("intent", VArray 1 [])]) "intent"
      <> Some (VArray r (x :: rest))) /\
  firstEntityValue (VObject 0 [("intent", VArray 1 [])]) "intent" = Ok VNull.
Proof.
  assert (H : forall r x rest,
             own_member (VObject 0 [("intent", VArray 1 [])]) "intent"
             <> Some (VArray r (x :: rest))) by (intros r x rest; discriminate).
  split; [exact H|].
  exact (firstEntityValue_absent _ _ H).
Defined.

(** An interval entity: its value is an object with a value of its own. *)
Lemma firstEntityValue_first_witness :
  own_member
    (VObject 0
       [("datetime",
         VArray 1
           [VObject 2 [("value", VObject 3 [("value", VString "2016-04-30")])];
            VObject 4 [("value", VString "2016-05-01")]])])
    "datetime"
  = Some (VArray 1
            [VObject 2 [("value", VObject 3 [("value", VString "2016-04-30")])];
             VObject 4 [("value", VString "2016-05-01")]]) /\
  get_prop (VObject 2 [("value", VObject 3 [("value", VString "2016-04-30")])])
    "value"
  = Ok (VObject 3 [("value", VString "2016-04-30")]) /\
  firstEntityValue
    (VObject 0
       [("datetime",
         VArray 1
           [VObject 2 [("value", VObject 3 [("value", VString "2016-04-30")])];
            VObject 4 [("value", VString "2016-05-01")]])])
    "datetime"
  = Ok (VString "2016-04-30").
Proof.
  split; [reflexivity|]. split; [reflexivity|].
  exact (firstEntityValue_first
           (VObject 0
              [("datetime",
                VArray 1
                  [VObject 2 [("value", VObject 3 [("value", VString "2016-04-30")])];
                   VObject 4 [("value", VString "2016-05-01")]])])
           "datetime" 1
           (VObject 2 [("value", VObject 3 [("value", VString "2016-04-30")])])
           (VObject 3 [("value", VString "2016-04-30")])
           [VObject 4 [("value", VString "2016-05-01")]] eq_refl eq_refl).
Defined.

Lemma firstEntityValue_null_element_witness :
  own_member (VObject 0 [("location", VArray 1 [VNull])]) "location"
  = Some (VArray 1 [VNull]) /\
  firstEntityValue (VObject 0 [("location", VArray 1 [VNull])]) "location"
  = Throw (TypeError "Cannot read property 'value' of null").
Proof.
  split; [reflexivity|].
  exact (firstEntityValue_null_element
           (VObject 0 [("location", VArray 1 [VNull])]) "location" 1 [] eq_refl).
Defined.

(** ** Replies to the handler's sends *)

Lemma handler_sends_ignore_replies_witness :
  (exists now body,
      In (FbReq (VString "u1")
            (VString "Sorry I can only process text messages for now.") None)
         (skipn (List.length (trace initial_world))
            (trace (fst (post_fb example_page_id decimal_literal now body
                           initial_world))))) /\
  deliver
    (FbReq (VString "u1")
       (VString "Sorry I can only process text messages for now.") None)
    VNull VUndefined VUndefined initial_world
  = (initial_world, Ok tt).
Proof.
  assert (H : exists now body,
             In (FbReq (VString "u1")
                   (VString "Sorry I can only process text messages for now.") None)
                (skipn (List.length (trace initial_world))
                   (trace (fst (post_fb example_page_id decimal_literal now body
                                  initial_world))))).
  { exists 0,
      (page_body example_page_id
         [("sender", VObject 5 [("id", VString "u1")]);
          ("recipient", VObject 6 [("id", VNumber example_page_id)]);
          ("message",
           VObject 7 [("attachments",
                       VArray 8 [VObject 9 [("type", VString "image")]])])]).
    left. reflexivity. }
  split; [exact H|].
  exact (handler_sends_ignore_replies example_page_id decimal_literal _
           VNull VUndefined VUndefined initial_world initial_world (or_introl H)).
Defined.
